(** * Bella Roma booking engine: a shallow embedding of [booking_engine.py]

    The availability store is the Python [dict] loaded from the JSON file:
    insertion-ordered, so it is an association list here; the engine's
    methods run in a small state-and-exception monad over that store;
    [re.search] is a backtracking matcher over a regex syntax tree.

    Text is a Rocq [string] (a sequence of bytes, UTF-8 for the non-ASCII
    literals of the source).  The character classes [\d] and [\s] and
    [str.lower] are the ASCII ones: a message is read as ASCII text. *)

From Stdlib Require Import ZArith List String Ascii Bool Lia Arith.
From Stdlib Require Import Numbers.DecimalString.
Import ListNotations.

Open Scope string_scope.
Open Scope Z_scope.

(** ** Python values and built-ins *)

Module Py.

(** The exceptions the modelled code can raise. *)
Inductive exn : Type :=
| ValueError
| KeyError
| IndexError
| OSError
| JSONDecodeError.

Definition result (A : Type) : Type := (exn + A)%type.

Definition code (c : ascii) : N := N_of_ascii c.

(** [\d] on ASCII text. *)
Definition is_digit (c : ascii) : bool :=
  ((48 <=? code c) && (code c <=? 57))%N.

(** [\s] on ASCII text: tab, newline, vertical tab, form feed, carriage
    return, the four separators 0x1c..0x1f, and space. *)
Definition is_space (c : ascii) : bool :=
  (((9 <=? code c) && (code c <=? 13))
   || ((28 <=? code c) && (code c <=? 32)))%N.

Definition is_upper (c : ascii) : bool :=
  ((65 <=? code c) && (code c <=? 90))%N.

Definition lower_char (c : ascii) : ascii :=
  if is_upper c then ascii_of_N (code c + 32) else c.

(** [str.lower] *)
Fixpoint lower (s : string) : string :=
  match s with
  | EmptyString => EmptyString
  | String c s' => String (lower_char c) (lower s')
  end.

Fixpoint all_chars (p : ascii -> bool) (s : string) : bool :=
  match s with
  | EmptyString => true
  | String c s' => p c && all_chars p s'
  end.

Definition all_digits : string -> bool := all_chars is_digit.
Definition all_space : string -> bool := all_chars is_space.

(** Whether the text begins with a character of the class. *)
Definition starts_in (p : ascii -> bool) (s : string) : bool :=
  match s with
  | EmptyString => false
  | String c _ => p c
  end.

Definition digit_val (c : ascii) : Z := Z.of_N (code c) - 48.

Fixpoint digits_val (acc : Z) (s : string) : Z :=
  match s with
  | EmptyString => acc
  | String c s' => digits_val (10 * acc + digit_val c) s'
  end.

(** CPython's default [sys.int_max_str_digits] (3.11, and 3.10.7 on). *)
Definition int_max_str_digits : nat := 4300.

(** [int(s)] for [s] a run of decimal digits, the only texts the engine
    converts: [ValueError] on a run longer than [int_max_str_digits].  (On
    any other text, which the engine never passes, the model answers
    [ValueError] too.) *)
Definition int (s : string) : result Z :=
  match s with
  | EmptyString => inl ValueError
  | String _ _ =>
      if all_digits s
      then if (int_max_str_digits <? String.length s)%nat
           then inl ValueError
           else inr (digits_val 0 s)
      else inl ValueError
  end.

(** [str(n)] and [f"{n}"] for an integer. *)
Definition str (n : Z) : string := NilZero.string_of_int (Z.to_int n).

(** [f"{n:02d}"] *)
Definition fmt_02d (n : Z) : string :=
  let s := str n in
  if (String.length s <? 2)%nat then "0" ++ s else s.

Fixpoint starts_with (p s : string) : bool :=
  match p, s with
  | EmptyString, _ => true
  | String a p', String b s' => Ascii.eqb a b && starts_with p' s'
  | String _ _, EmptyString => false
  end.

Fixpoint drop (n : nat) (s : string) : string :=
  match n, s with
  | O, _ => s
  | S n', String _ s' => drop n' s'
  | S _, EmptyString => EmptyString
  end.

(** [needle in hay] *)
Fixpoint contains (needle hay : string) : bool :=
  starts_with needle hay
  || match hay with
     | EmptyString => false
     | String _ hay' => contains needle hay'
     end.

(** [any(word in text for word in words)] *)
Definition any_in (words : list string) (text : string) : bool :=
  existsb (fun w => contains w text) words.

(** [sep.join(parts)] *)
Definition join (sep : string) (parts : list string) : string :=
  String.concat sep parts.

(** [s.split(sep)] for a one-character separator. *)
Fixpoint split (sep : ascii) (s : string) : list string :=
  match s with
  | EmptyString => [EmptyString]
  | String c s' =>
      if Ascii.eqb c sep then EmptyString :: split sep s'
      else match split sep s' with
           | [] => [String c EmptyString]
           | p :: ps => String c p :: ps
           end
  end.

(** [xs[i]] *)
Definition index {A : Type} (xs : list A) (i : nat) : result A :=
  match nth_error xs i with
  | Some x => inr x
  | None => inl IndexError
  end.

(** A [dict] with string keys, in insertion order. *)
Definition dict (V : Type) : Type := list (string * V).

Fixpoint dict_get {V : Type} (d : dict V) (k : string) : option V :=
  match d with
  | [] => None
  | (k', v) :: d' => if String.eqb k k' then Some v else dict_get d' k
  end.

(** [k in d] *)
Definition dict_in {V : Type} (k : string) (d : dict V) : bool :=
  match dict_get d k with Some _ => true | None => false end.

(** [d[k]] *)
Definition getitem {V : Type} (d : dict V) (k : string) : result V :=
  match dict_get d k with
  | Some v => inr v
  | None => inl KeyError
  end.

(** [d[k] = v]: an existing key keeps its place, a new one goes last. *)
Fixpoint setitem {V : Type} (d : dict V) (k : string) (v : V) : dict V :=
  match d with
  | [] => [(k, v)]
  | (k', v') :: d' =>
      if String.eqb k k' then (k', v) :: d' else (k', v') :: setitem d' k v
  end.

Definition keys {V : Type} (d : dict V) : list string := map fst d.
Definition values {V : Type} (d : dict V) : list V := map snd d.

(** [sum(xs)] *)
Definition sum (xs : list Z) : Z := fold_left Z.add xs 0.

End Py.

(** ** Regular expressions, as [re.search] runs them *)

Module Re.

Inductive cls : Type := Digit | Space.

Definition cls_test (c : cls) : ascii -> bool :=
  match c with
  | Digit => Py.is_digit
  | Space => Py.is_space
  end.

(** The syntax the engine's four patterns need: literal text, a greedy
    bounded or unbounded repetition of a character class, sequence,
    ordered alternative and the capturing group number 1. *)
Inductive regex : Type :=
| Lit (s : string)
| Rep (c : cls) (lo : nat) (hi : option nat)
| Seq (r1 r2 : regex)
| Alt (r1 r2 : regex)
| Group (r : regex).

Definition more (hi : option nat) : bool :=
  match hi with
  | Some O => false
  | _ => true
  end.

(** Greedy repetition: one more character first, stopping as the fallback.
    The continuation receives the text consumed and the rest. *)
Fixpoint rep_match {R : Type} (p : ascii -> bool) (lo : nat) (hi : option nat)
    (s : string) (k : string -> string -> option R) : option R :=
  let stop := match lo with
              | O => k EmptyString s
              | S _ => None
              end in
  match s with
  | EmptyString => stop
  | String c s' =>
      if p c && more hi
      then match rep_match p (Nat.pred lo) (option_map Nat.pred hi) s'
                   (fun m rest => k (String c m) rest) with
           | Some r => Some r
           | None => stop
           end
      else stop
  end.

(** Backtracking match of [r] at the head of [s]; [cap] is group 1 so far.
    The continuation receives the text [r] consumed, the rest, and group 1. *)
Fixpoint rmatch {R : Type} (r : regex) (s : string) (cap : string)
    (k : string -> string -> string -> option R) : option R :=
  match r with
  | Lit l =>
      if Py.starts_with l s then k l (Py.drop (String.length l) s) cap
      else None
  | Rep c lo hi =>
      rep_match (cls_test c) lo hi s (fun m rest => k m rest cap)
  | Seq r1 r2 =>
      rmatch r1 s cap (fun m1 s1 c1 =>
        rmatch r2 s1 c1 (fun m2 s2 c2 => k (m1 ++ m2) s2 c2))
  | Alt r1 r2 =>
      match rmatch r1 s cap k with
      | Some x => Some x
      | None => rmatch r2 s cap k
      end
  | Group r1 =>
      rmatch r1 s cap (fun m rest _ => k m rest m)
  end.

Definition within (hi : option nat) (n : nat) : Prop :=
  match hi with
  | Some h => (n <= h)%nat
  | None => True
  end.

(** The texts a pattern matches, with group 1 before and after. *)
Inductive Matches : regex -> string -> string -> string -> Prop :=
| M_Lit l cap : Matches (Lit l) l cap cap
| M_Rep c lo hi m cap :
    Py.all_chars (cls_test c) m = true ->
    (lo <= String.length m)%nat -> within hi (String.length m) ->
    Matches (Rep c lo hi) m cap cap
| M_Seq r1 r2 m1 m2 cap cap1 cap2 :
    Matches r1 m1 cap cap1 -> Matches r2 m2 cap1 cap2 ->
    Matches (Seq r1 r2) (m1 ++ m2) cap cap2
| M_AltL r1 r2 m cap cap' :
    Matches r1 m cap cap' -> Matches (Alt r1 r2) m cap cap'
| M_AltR r1 r2 m cap cap' :
    Matches r2 m cap cap' -> Matches (Alt r1 r2) m cap cap'
| M_Group r m cap cap' :
    Matches r m cap cap' -> Matches (Group r) m cap m.

(** [re.match(r, s)], giving [group(1)]. Each pattern below has exactly one
    capturing group and it takes part in every match. *)
Definition match_at (r : regex) (s : string) : option string :=
  rmatch r s EmptyString (fun _ _ cap => Some cap).

(** [re.search(r, s)], giving [group(1)] of the leftmost match. *)
Fixpoint search (r : regex) (s : string) : option string :=
  match match_at r s with
  | Some g => Some g
  | None =>
      match s with
      | EmptyString => None
      | String _ s' => search r s'
      end
  end.


End Re.

(** ** [datetime.strptime(s, "%Y-%m-%d")] and [strftime("%B %d, %Y")] *)

Module Date.

Record date : Type := mk_date { year : Z; month : Z; day : Z }.

Definition orelse {A : Type} (a b : option A) : option A :=
  match a with
  | Some x => Some x
  | None => b
  end.

Infix "<|>" := orelse (at level 51, right associativity).

(** A decimal digit between [lo] and [hi]. *)
Definition digit_in (lo hi : Z) (c : ascii) : bool :=
  Py.is_digit c && (lo <=? Py.digit_val c) && (Py.digit_val c <=? hi).

(** [%Y]: four digits. *)
Definition field_Y {R : Type} (s : string) (k : Z -> string -> option R)
  : option R :=
  match s with
  | String a (String b (String c (String d rest))) =>
      if Py.all_digits (String a (String b (String c (String d "")))) then
        k (Py.digits_val 0 (String a (String b (String c (String d ""))))) rest
      else None
  | _ => None
  end.

(** [%m]: [1[0-2]|0[1-9]|[1-9]], tried in that order. *)
Definition field_m {R : Type} (s : string) (k : Z -> string -> option R)
  : option R :=
  match s with
  | String a (String b rest) =>
      if digit_in 1 1 a && digit_in 0 2 b then k (10 + Py.digit_val b) rest
      else None
  | _ => None
  end
  <|> match s with
      | String a (String b rest) =>
          if digit_in 0 0 a && digit_in 1 9 b then k (Py.digit_val b) rest
          else None
      | _ => None
      end
  <|> match s with
      | String a rest => if digit_in 1 9 a then k (Py.digit_val a) rest else None
      | _ => None
      end.

(** [%d]: [3[0-1]|[1-2]\d|0[1-9]|[1-9]| [1-9]], tried in that order. *)
Definition field_d {R : Type} (s : string) (k : Z -> string -> option R)
  : option R :=
  match s with
  | String a (String b rest) =>
      if digit_in 3 3 a && digit_in 0 1 b then k (30 + Py.digit_val b) rest
      else None
  | _ => None
  end
  <|> match s with
      | String a (String b rest) =>
          if digit_in 1 2 a && Py.is_digit b
          then k (10 * Py.digit_val a + Py.digit_val b) rest
          else None
      | _ => None
      end
  <|> match s with
      | String a (String b rest) =>
          if digit_in 0 0 a && digit_in 1 9 b then k (Py.digit_val b) rest
          else None
      | _ => None
      end
  <|> match s with
      | String a rest => if digit_in 1 9 a then k (Py.digit_val a) rest else None
      | _ => None
      end
  <|> match s with
      | String a (String b rest) =>
          if Ascii.eqb a " " && digit_in 1 9 b then k (Py.digit_val b) rest
          else None
      | _ => None
      end.

Definition dash {R : Type} (s : string) (k : string -> option R) : option R :=
  match s with
  | String a rest => if Ascii.eqb a "-" then k rest else None
  | EmptyString => None
  end.

(** The format's regex matched at the head of [s]: the three fields and
    the text left over. *)
Definition match_Ymd (s : string) : option (Z * Z * Z * string) :=
  field_Y s (fun y s1 =>
  dash s1 (fun s2 =>
  field_m s2 (fun m s3 =>
  dash s3 (fun s4 =>
  field_d s4 (fun d rest => Some (y, m, d, rest)))))).

Definition is_leap (y : Z) : bool :=
  ((y mod 4 =? 0) && negb (y mod 100 =? 0)) || (y mod 400 =? 0).

Definition days_in_month (y m : Z) : Z :=
  if m =? 2 then (if is_leap y then 29 else 28)
  else if (m =? 4) || (m =? 6) || (m =? 9) || (m =? 11) then 30
  else 31.

(** [datetime.strptime(s, "%Y-%m-%d")]: [ValueError] when the text does not
    match, when text remains, and when the fields are no calendar date. *)
Definition strptime_Ymd (s : string) : Py.result date :=
  match match_Ymd s with
  | None => inl Py.ValueError
  | Some (y, m, d, rest) =>
      match rest with
      | String _ _ => inl Py.ValueError
      | EmptyString =>
          if (1 <=? y) && (1 <=? d) && (d <=? days_in_month y m)
          then inr (mk_date y m d)
          else inl Py.ValueError
      end
  end.

Definition month_name (m : Z) : string :=
  match m with
  | 1 => "January" | 2 => "February" | 3 => "March" | 4 => "April"
  | 5 => "May" | 6 => "June" | 7 => "July" | 8 => "August"
  | 9 => "September" | 10 => "October" | 11 => "November"
  | _ => "December"
  end.

(** [dt.strftime("%B %d, %Y")] in the C locale; the year is printed as the
    C library prints it, without padding. *)
Definition strftime_BdY (dt : date) : string :=
  month_name (month dt) ++ " " ++ Py.fmt_02d (day dt) ++ ", " ++ Py.str (year dt).

End Date.

(** ** The availability file, as [open] and [json.load] see it *)

Module Json.







End Json.

(** ** The booking engine *)

Module BookingEngine.

(** [DEFAULT_DATE] *)
Definition DEFAULT_DATE : string := "2026-02-20".



(** The store of the data model: date -> time -> remaining tables. *)
Definition Schedule : Type := Py.dict Z.
Definition Store : Type := Py.dict Schedule.



(** Methods read and write [self.availability] and may raise. *)
Definition M (A : Type) : Type := Store -> Py.result A * Store.

Definition ret {A : Type} (a : A) : M A := fun s => (inr a, s).

Definition bind {A B : Type} (c : M A) (k : A -> M B) : M B :=
  fun s =>
    match c s with
    | (inl e, s') => (inl e, s')
    | (inr a, s') => k a s'
    end.

Definition lift {A : Type} (r : Py.result A) : M A := fun s => (r, s).

Definition get : M Store := fun s => (inr s, s).

Definition put (s' : Store) : M unit := fun _ => (inr tt, s').

Notation "x <- c1 ;; c2" := (bind c1 (fun x => c2))
  (at level 61, c1 at next level, right associativity).
Notation "c1 ;;; c2" := (bind c1 (fun _ => c2))
  (at level 61, right associativity).

Inductive Reason : Type := ok | fully_booked | date_not_found | time_not_found.

Definition Reason_eqb (a b : Reason) : bool :=
  match a, b with
  | ok, ok | fully_booked, fully_booked
  | date_not_found, date_not_found | time_not_found, time_not_found => true
  | _, _ => false
  end.

(** The dict [check_availability] returns. *)
Record AvailabilityResult : Type :=
  { available : bool; tables : Z; reason : Reason }.

(** [BookingEngine._format_date]: only [ValueError] is caught. *)
Definition _format_date (date_str : string) : Py.result string :=
  match Date.strptime_Ymd date_str with
  | inr dt => inr (Date.strftime_BdY dt)
  | inl Py.ValueError => inr date_str
  | inl e => inl e
  end.

(** [BookingEngine.check_availability] *)
Definition check_availability (date time : string) : M AvailabilityResult :=
  avail <- get ;;
  if negb (Py.dict_in date avail) then
    ret {| available := false; tables := 0; reason := date_not_found |}
  else
    day_schedule <- lift (Py.getitem avail date) ;;
    if negb (Py.dict_in time day_schedule) then
      ret {| available := false; tables := 0; reason := time_not_found |}
    else
      n <- lift (Py.getitem day_schedule time) ;;
      ret {| available := 0 <? n;
             tables := n;
             reason := if 0 <? n then ok else fully_booked |}.

(** ['s' if n != 1 else ''] *)
Definition plural (n : Z) : string := if negb (n =? 1) then "s" else "".

(** One entry of the [available_slots] comprehension. *)
Definition slot_text (t : string) (c : Z) : string :=
  t ++ " (" ++ Py.str c ++ " table" ++ plural c ++ " left)".

(** The comprehension over [day_schedule.items()]. *)
Fixpoint available_slots (items : Schedule) : list string :=
  match items with
  | [] => []
  | (t, c) :: rest =>
      if 0 <? c then slot_text t c :: available_slots rest
      else available_slots rest
  end.

(** The loop over [self.availability.items()] that fills [other_dates]. *)
Fixpoint collect_other_dates (date : string) (items : Store)
    (other_dates : list string) : Py.result (list string) :=
  match items with
  | [] => inr other_dates
  | (d, schedule) :: rest =>
      if negb (String.eqb d date) then
        let total_tables := Py.sum (Py.values schedule) in
        if 0 <? total_tables then
          match _format_date d with
          | inl e => inl e
          | inr fd => collect_other_dates date rest (other_dates ++ [fd])
          end
        else collect_other_dates date rest other_dates
      else collect_other_dates date rest other_dates
  end.

Definition no_tables_text : string :=
  "😔 Unfortunately, we have no available tables at this time. Please try again later.".

(** The part of [suggest_alternative] after the same-date attempt. *)
Definition suggest_other_dates (date : string) : M string :=
  avail <- get ;;
  other_dates <- lift (collect_other_dates date avail []) ;;
  match other_dates with
  | _ :: _ =>
      let dates_text := Py.join ", " other_dates in
      fd <- lift (_format_date date) ;;
      ret ("📋 No availability on " ++ fd
           ++ ". Try these dates instead: " ++ dates_text)
  | [] => ret no_tables_text
  end.

(** [BookingEngine.suggest_alternative] *)
Definition suggest_alternative (date : string) : M string :=
  avail <- get ;;
  if Py.dict_in date avail then
    day_schedule <- lift (Py.getitem avail date) ;;
    match available_slots day_schedule with
    | (_ :: _) as slots =>
        let slots_text := Py.join ", " slots in
        fd <- lift (_format_date date) ;;
        ret ("📋 Available times on " ++ fd ++ ": " ++ slots_text)
    | [] => suggest_other_dates date
    end
  else suggest_other_dates date.

Definition nl : string := String (ascii_of_N 10) EmptyString.
Definition dquote : string := String (ascii_of_N 34) EmptyString.

Definition guests_error_text : string :=
  "🚫 Number of guests must be at least 1. Please try again.".

(** [BookingEngine.book_table] *)
Definition book_table (date time : string) (guests : Z) : M string :=
  if guests <=? 0 then ret guests_error_text
  else
    status <- check_availability date time ;;
    if Reason_eqb (reason status) date_not_found then
      alternatives <- suggest_alternative date ;;
      fd <- lift (_format_date date) ;;
      ret ("🚫 Sorry, we don't have availability data for " ++ fd ++ ". "
           ++ alternatives)
    else if Reason_eqb (reason status) time_not_found then
      alternatives <- suggest_alternative date ;;
      fd <- lift (_format_date date) ;;
      ret ("🚫 Sorry, we don't offer reservations at " ++ time ++ " on "
           ++ fd ++ ". " ++ alternatives)
    else if negb (available status) then
      alternatives <- suggest_alternative date ;;
      fd <- lift (_format_date date) ;;
      ret ("🚫 Sorry, no tables are available at " ++ time ++ " on "
           ++ fd ++ ". " ++ alternatives)
    else
      (* self.availability[date][time] -= 1 *)
      avail <- get ;;
      day_schedule <- lift (Py.getitem avail date) ;;
      n <- lift (Py.getitem day_schedule time) ;;
      put (Py.setitem avail date (Py.setitem day_schedule time (n - 1))) ;;;
      (* remaining = self.availability[date][time] *)
      avail' <- get ;;
      day_schedule' <- lift (Py.getitem avail' date) ;;
      remaining <- lift (Py.getitem day_schedule' time) ;;
      fd <- lift (_format_date date) ;;
      ret ("✅ Reservation confirmed!" ++ nl ++ nl
           ++ "📅 Date: " ++ fd ++ nl
           ++ "🕐 Time: " ++ time ++ nl
           ++ "👥 Guests: " ++ Py.str guests ++ nl ++ nl
           ++ "🍕 We look forward to welcoming you at Bella Roma! "
           ++ "(" ++ Py.str remaining ++ " table" ++ plural remaining
           ++ " remaining for this slot)").

(** The four patterns of [handle_message]. *)
Definition date_re : Re.regex :=
  Re.Group (Re.Seq (Re.Rep Re.Digit 4 (Some 4%nat))
           (Re.Seq (Re.Lit "-")
           (Re.Seq (Re.Rep Re.Digit 2 (Some 2%nat))
           (Re.Seq (Re.Lit "-") (Re.Rep Re.Digit 2 (Some 2%nat)))))).

Definition time_re : Re.regex :=
  Re.Group (Re.Seq (Re.Rep Re.Digit 1 (Some 2%nat))
           (Re.Seq (Re.Lit ":") (Re.Rep Re.Digit 2 (Some 2%nat)))).

Definition guest_re : Re.regex :=
  Re.Seq (Re.Group (Re.Rep Re.Digit 1 None))
  (Re.Seq (Re.Rep Re.Space 0 None)
          (Re.Alt (Re.Lit "guest")
          (Re.Alt (Re.Lit "people")
          (Re.Alt (Re.Lit "person")
          (Re.Alt (Re.Lit "pax") (Re.Lit "seat")))))).

Definition for_re : Re.regex :=
  Re.Seq (Re.Alt (Re.Lit "for") (Re.Lit "of"))
  (Re.Seq (Re.Rep Re.Space 1 None) (Re.Group (Re.Rep Re.Digit 1 None))).

(** The local variables [date], [time_str] and [guests]. *)
Record Slots : Type :=
  { slot_date : string; slot_time : option string; slot_guests : Z }.

Definition rbind {A B : Type} (r : Py.result A) (k : A -> Py.result B)
  : Py.result B :=
  match r with
  | inl e => inl e
  | inr a => k a
  end.

(** The date: first [YYYY-MM-DD] of the message, else [DEFAULT_DATE]. *)
Definition extract_date (message : string) : string :=
  match Re.search date_re message with
  | Some g => g
  | None => DEFAULT_DATE
  end.

(** The time: first [H:MM] or [HH:MM], normalized to [HH:MM]. *)
Definition extract_time (message : string) : Py.result (option string) :=
  match Re.search time_re message with
  | None => inr None
  | Some raw_time =>
      let parts := Py.split ":" raw_time in
      rbind (Py.index parts 0) (fun p0 =>
      rbind (Py.int p0) (fun h =>
      rbind (Py.index parts 1) (fun p1 =>
      inr (Some (Py.fmt_02d h ++ ":" ++ p1)))))
  end.

(** The guest count, with the "for 4" / "of 4" second attempt. *)
Definition extract_guests (message_lower : string) : Py.result Z :=
  rbind (match Re.search guest_re message_lower with
         | Some g => Py.int g
         | None => inr 0
         end) (fun guests =>
  if guests =? 0 then
    match Re.search for_re message_lower with
    | Some g => Py.int g
    | None => inr guests
    end
  else inr guests).

(** Lines 154-177 of [handle_message]. *)
Definition extract_slots (message : string) : Py.result Slots :=
  let message_lower := Py.lower message in
  let date := extract_date message in
  rbind (extract_time message) (fun time_str =>
  rbind (extract_guests message_lower) (fun guests =>
  inr {| slot_date := date; slot_time := time_str; slot_guests := guests |})).

Definition check_words : list string :=
  ["check"; "available"; "availability"; "open"].

Definition book_words : list string := ["book"; "reserve"; "reservation"].

(** Truth value of [time_str]: [None] and the empty text are false. *)
Definition truthy (time_str : option string) : bool :=
  match time_str with
  | Some (String _ _) => true
  | _ => false
  end.

(** The text an f-string renders for [time_str]. *)
Definition show_time (time_str : option string) : string :=
  match time_str with
  | Some t => t
  | None => "None"
  end.

Definition time_prompt : string :=
  "🍕 I'd love to help you book a table! "
  ++ "Please provide the time (e.g., 19:00), "
  ++ "number of guests (e.g., 4 guests), "
  ++ "and optionally a date (e.g., 2026-02-20). "
  ++ "Default date is February 20, 2026.".


Definition guests_prompt (time_str fd : string) : string :=
  "🍕 Great choice! " ++ time_str ++ " on " ++ fd ++ " — "
  ++ "how many guests will be joining? "
  ++ "(e.g., 'book for 4 guests at " ++ time_str ++ "')".

(** The generator [self._format_date(d) for d in self.availability.keys()]. *)
Fixpoint format_dates (ds : list string) : Py.result (list string) :=
  match ds with
  | [] => inr []
  | d :: rest =>
      rbind (_format_date d) (fun fd =>
      rbind (format_dates rest) (fun fds => inr (fd :: fds)))
  end.

Definition help_text (dates : string) : string :=
  "🍕 I can help you with reservations! Try:" ++ nl ++ nl
  ++ "• " ++ dquote ++ "Book a table for 4 at 19:00" ++ dquote ++ nl
  ++ "• " ++ dquote ++ "Check availability at 20:00" ++ dquote ++ nl
  ++ "• " ++ dquote ++ "Reserve for 2 guests at 18:00 on 2026-02-21"
  ++ dquote ++ nl ++ nl
  ++ "Our available dates: " ++ dates.

(** [BookingEngine.handle_message] *)
Definition handle_message (message : string) : M string :=
  let message_lower := Py.lower message in
  slots <- lift (extract_slots message) ;;
  let date := slot_date slots in
  let time_str := slot_time slots in
  let guests := slot_guests slots in
  if Py.any_in check_words message_lower then
    if truthy time_str then
      status <- check_availability date (show_time time_str) ;;
      if available status then
        fd <- lift (_format_date date) ;;
        ret ("✅ Yes! We have " ++ Py.str (tables status) ++ " table"
             ++ plural (tables status) ++ " "
             ++ "available at " ++ show_time time_str ++ " on " ++ fd ++ ". "
             ++ "Would you like to book one?")
      else
        alternatives <- suggest_alternative date ;;
        fd <- lift (_format_date date) ;;
        ret ("🚫 No tables available at " ++ show_time time_str ++ " on "
             ++ fd ++ ". " ++ alternatives)
    else suggest_alternative date
  else if Py.any_in book_words message_lower then
    if negb (truthy time_str) then ret time_prompt
    else if guests =? 0 then
      fd <- lift (_format_date date) ;;
      ret (guests_prompt (show_time time_str) fd)
    else book_table date (show_time time_str) guests
  else
    avail <- get ;;
    fds <- lift (format_dates (Py.keys avail)) ;;
    ret (help_text (Py.join ", " fds)).

(** [_format_date] read as a function: the text it returns. *)
Definition format_date (date_str : string) : string :=
  match _format_date date_str with
  | inr text => text
  | inl _ => date_str
  end.

(** [store[date][time]] when both keys are present. *)
Definition slot_count (s : Store) (date time : string) : option Z :=
  match Py.dict_get s date with
  | Some day_schedule => Py.dict_get day_schedule time
  | None => None
  end.

(** The data model's invariant: every count is at least 0. *)
Definition nonneg_schedule (sch : Schedule) : Prop :=
  Forall (fun tc => 0 <= snd tc) sch.

Definition nonneg_store (s : Store) : Prop :=
  Forall (fun ds => nonneg_schedule (snd ds)) s.

(** The entries the same-date suggestion keeps. *)
Definition has_tables (tc : string * Z) : bool := 0 <? snd tc.

(** The dates the other-dates suggestion keeps. *)
Definition other_with_capacity (date : string) (ds : string * Schedule)
  : bool :=
  negb (String.eqb (fst ds) date) && (0 <? Py.sum (Py.values (snd ds))).

(** The text [suggest_alternative] returns. *)
Definition suggested (s : Store) (date : string) : string :=
  match fst (suggest_alternative date s) with
  | inr text => text
  | inl _ => EmptyString
  end.

(** The tail of the confirmation, after the greeting. *)
Definition remaining_text (remaining : Z) : string :=
  "(" ++ Py.str remaining ++ " table" ++ plural remaining
  ++ " remaining for this slot)".

(** The operations a client of the engine can invoke. *)
Inductive op : Type :=
| CheckAvailability (date time : string)
| BookTable (date time : string) (guests : Z)
| SuggestAlternative (date : string)
| HandleMessage (message : string).

(** The store after one operation (whether it returned or raised). *)
Definition run_op (o : op) (s : Store) : Store :=
  match o with
  | CheckAvailability d t => snd (check_availability d t s)
  | BookTable d t g => snd (book_table d t g s)
  | SuggestAlternative d => snd (suggest_alternative d s)
  | HandleMessage m => snd (handle_message m s)
  end.

Definition run_ops (os : list op) (s : Store) : Store :=
  fold_left (fun st o => run_op o st) os s.

End BookingEngine.

(** ** The phrases of the slot extractor, as the specification words them *)

Module Phrase.

(** [H] or [HH]. *)
Definition is_hour (h : string) : Prop :=
  Py.all_digits h = true
  /\ (String.length h = 1%nat \/ String.length h = 2%nat).

(** [MM]. *)
Definition is_minutes (mm : string) : Prop :=
  Py.all_digits mm = true /\ String.length mm = 2%nat.

(** The text begins with the time [h:mm]. *)
Definition time_at (s h mm : string) : Prop :=
  is_hour h /\ is_minutes mm /\ exists post, s = h ++ ":" ++ mm ++ post.

Definition time_here (s : string) : Prop := exists h mm, time_at s h mm.

(** The hour padded with a zero to two digits. *)
Definition zero_pad2 (h : string) : string :=
  if (String.length h <? 2)%nat then "0" ++ h else h.



(** The text begins with "for" or "of", blanks, and the integer [ds]
    (the whole run of digits). *)
Definition for_phrase_at (s ds : string) : Prop :=
  exists kw ws post,
    s = kw ++ ws ++ ds ++ post
    /\ (kw = "for" \/ kw = "of")
    /\ ws <> EmptyString /\ Py.all_space ws = true
    /\ ds <> EmptyString /\ Py.all_digits ds = true
    /\ Py.starts_in Py.is_digit post = false.

Definition for_phrase_here (s : string) : Prop := exists ds, for_phrase_at s ds.

(** [q] is the first place of [m], after [pre], where [P] holds. *)
Definition first_at (P : string -> Prop) (m pre q : string) : Prop :=
  m = pre ++ q /\ P q
  /\ forall pre' q', m = pre' ++ q' ->
       (String.length pre' < String.length pre)%nat -> ~ P q'.

(** [P] holds at no place of [m]. *)
Definition nowhere (P : string -> Prop) (m : string) : Prop :=
  forall pre q, m = pre ++ q -> ~ P q.

End Phrase.

(** ** More phrases of the slot extractor *)

Module Shape.




End Shape.

(** ** [rag_engine.py]: the menu assistant, as the chat route sees it *)

Module RAGEngine.

Section Chain.

(** What [self.qa_chain.invoke(question)] does: it returns a text or
    raises.  The retrieval chain itself (embeddings, index, hosted model)
    is outside this development. *)
Variable qa_chain : string -> Py.result string.

Definition apology : string :=
  "I'm sorry, something went wrong while looking that up. Please try again.".

(** [RAGEngine.query]: every exception of the chain is caught. *)
Definition query (question : string) : string :=
  match qa_chain question with
  | inr result => result
  | inl _ => apology
  end.

End Chain.

End RAGEngine.

(** ** [app.py]: routing a chat message *)

Module App.

(** [BOOKING_KEYWORDS] *)
Definition BOOKING_KEYWORDS : list string :=
  ["book"; "reserve"; "reservation"; "available"; "availability"; "table";
   "seat"; "booking"].

(** [is_booking_intent] *)
Definition is_booking_intent (message : string) : bool :=
  let message_lower := Py.lower message in
  Py.any_in BOOKING_KEYWORDS message_lower.

(** [str.lstrip] *)
Fixpoint lstrip (s : string) : string :=
  match s with
  | EmptyString => EmptyString
  | String c s' => if Py.is_space c then lstrip s' else s
  end.

(** [str.rstrip] *)
Fixpoint rstrip (s : string) : string :=
  match s with
  | EmptyString => EmptyString
  | String c s' =>
      match rstrip s' with
      | EmptyString => if Py.is_space c then EmptyString
                       else String c EmptyString
      | String c' r => String c (String c' r)
      end
  end.

(** [str.strip] *)
Definition strip (s : string) : string := rstrip (lstrip s).

Definition empty_message_text : string :=
  "🍕 Please type a message! I'm here to help with our menu and reservations.".

Section Chat.

Variable qa_chain : string -> Py.result string.

(** [chat_endpoint], giving the text of the JSON field ["response"]; the
    state is the store of the global [booking_engine]. *)
Definition chat_endpoint (chat_request_message : string)
  : BookingEngine.M string :=
  let message := strip chat_request_message in
  match message with
  | EmptyString => BookingEngine.ret empty_message_text
  | String _ _ =>
      if is_booking_intent message then BookingEngine.handle_message message
      else BookingEngine.ret (RAGEngine.query qa_chain message)
  end.

(** The store after a series of chat requests, served one after the
    other. *)
Definition chat_all (messages : list string) (s : BookingEngine.Store)
  : BookingEngine.Store :=
  fold_left (fun st m => snd (chat_endpoint m st)) messages s.

End Chat.

End App.

(** ** Example inputs *)

Import BookingEngine.

(** The one-slot store of the specification's scenarios. *)
Definition scenario_store : Store := [("2026-02-20", [("19:00", 2)])].

Fixpoint repeat_char (c : ascii) (n : nat) (tail : string) : string :=
  match n with
  | O => tail
  | S n' => String c (repeat_char c n' tail)
  end.

(** A booking request whose guest count is written with 4301 digits. *)
Definition long_number_message : string :=
  "book a table at 19:00 for " ++ repeat_char "1" 4301 " guests".


(** A series of bookings of one slot, one per party. *)
Definition bookings (date time : string) (parties : list Z) : list op :=
  map (BookTable date time) parties.

(** A store with two dates, one of them fully booked. *)
Definition two_day_store : Store :=
  [("2026-02-20", [("18:00", 0); ("19:00", 0)]);
   ("2026-02-21", [("18:00", 3); ("20:00", 1)])].


Definition echo_chain (question : string) : Py.result string :=
  inr question.

(** * Properties *)

(** ** Text *)

Lemma append_assoc (a b c : string) : (a ++ b) ++ c = a ++ (b ++ c).
Proof. induction a as [|x a IH]; simpl; [reflexivity|now rewrite IH]. Qed.


(** ** Dictionaries *)

Section DictFacts.
Context {V : Type}.
Implicit Types (d : Py.dict V) (k : string) (v : V).

Lemma dict_get_setitem_same d k v :
  Py.dict_get (Py.setitem d k v) k = Some v.
Proof.
  induction d as [|[k' v'] d IH]; simpl.
  - now rewrite String.eqb_refl.
  - destruct (String.eqb k k') eqn:E; simpl; rewrite E; auto.
Qed.

Lemma dict_get_setitem_other d k k' v :
  k' <> k -> Py.dict_get (Py.setitem d k v) k' = Py.dict_get d k'.
Proof.
  intros Hne. induction d as [|[k0 v0] d IH]; simpl.
  - apply String.eqb_neq in Hne. now rewrite Hne.
  - destruct (String.eqb k k0) eqn:E; simpl.
    + apply String.eqb_eq in E; subst k0.
      apply String.eqb_neq in Hne. now rewrite Hne.
    + now rewrite IH.
Qed.

Lemma keys_setitem_present d k v v0 :
  Py.dict_get d k = Some v0 -> Py.keys (Py.setitem d k v) = Py.keys d.
Proof.
  unfold Py.keys.
  induction d as [|[k' v'] d IH]; simpl; [discriminate|].
  destruct (String.eqb k k') eqn:E; simpl; intros H; [reflexivity|].
  f_equal. auto.
Qed.

Lemma dict_get_In d k v : Py.dict_get d k = Some v -> In (k, v) d.
Proof.
  induction d as [|[k' v'] d IH]; simpl; [discriminate|].
  destruct (String.eqb k k') eqn:E; intros H.
  - apply String.eqb_eq in E. injection H as ->. subst. now left.
  - right. auto.
Qed.

Lemma Forall_setitem (Q : V -> Prop) d k v :
  Forall (fun kv => Q (snd kv)) d -> Q v ->
  Forall (fun kv => Q (snd kv)) (Py.setitem d k v).
Proof.
  intros Hd Hv. induction Hd as [|[k' v'] d Hx Hd IH]; simpl.
  - constructor; auto.
  - destruct (String.eqb k k'); constructor; auto.
Qed.

End DictFacts.

(** ** Date formatting *)

Lemma strptime_Ymd_raises (s : string) (e : Py.exn) :
  Date.strptime_Ymd s = inl e -> e = Py.ValueError.
Proof.
  unfold Date.strptime_Ymd.
  destruct (Date.match_Ymd s) as [[[[y m] d] rest]|]; [|congruence].
  destruct rest; [|congruence].
  destruct ((1 <=? y) && (1 <=? d) && (d <=? Date.days_in_month y m));
    congruence.
Qed.

Lemma _format_date_returns (d : string) :
  _format_date d = inr (format_date d).
Proof.
  unfold format_date, _format_date.
  destruct (Date.strptime_Ymd d) as [e|dt] eqn:E; [|reflexivity].
  apply strptime_Ymd_raises in E. now subst e.
Qed.

(** ** The monad *)

Ltac run := unfold bind, ret, lift, get, put; cbv beta iota.

Lemma bind_lift {A B : Type} (r : Py.result A) (k : A -> M B) (s : Store) :
  bind (lift r) k s = match r with
                      | inl e => (inl e, s)
                      | inr a => k a s
                      end.
Proof. now destruct r. Qed.

Lemma bind_returns {A B : Type} (c : M A) (k : A -> M B) (s s' : Store)
    (a : A) :
  c s = (inr a, s') -> bind c k s = k a s'.
Proof. unfold bind. now intros ->. Qed.

Lemma check_availability_run (s : Store) (date time : string) :
  check_availability date time s =
  (inr match Py.dict_get s date with
       | None => {| available := false; tables := 0;
                    reason := date_not_found |}
       | Some day_schedule =>
           match Py.dict_get day_schedule time with
           | None => {| available := false; tables := 0;
                        reason := time_not_found |}
           | Some n => {| available := 0 <? n; tables := n;
                          reason := if 0 <? n then ok else fully_booked |}
           end
       end, s).
Proof.
  unfold check_availability, Py.dict_in, Py.getitem. run.
  destruct (Py.dict_get s date) as [sch|]; cbv beta iota; [|reflexivity].
  simpl negb. cbv iota.
  destruct (Py.dict_get sch time) as [n|]; reflexivity.
Qed.

(** C1. [check_availability] answers [date_not_found] (unavailable, 0
    tables) for a date that is no key of the store, else [time_not_found]
    (unavailable, 0 tables) for a time that is no key under the date, else
    the stored count with [available] = (count > 0) and reason [ok] when
    available and [fully_booked] otherwise; it leaves the store as it was,
    and a second call right after the first gives the same answer. *)
Theorem check_availability_spec (s : Store) (date time : string) :
  exists r : AvailabilityResult,
    check_availability date time s = (inr r, s)
    /\ match Py.dict_get s date with
       | None =>
           Py.dict_in date s = false
           /\ reason r = date_not_found /\ available r = false /\ tables r = 0
       | Some day_schedule =>
           Py.dict_in date s = true
           /\ match Py.dict_get day_schedule time with
              | None =>
                  Py.dict_in time day_schedule = false
                  /\ reason r = time_not_found
                  /\ available r = false /\ tables r = 0
              | Some n =>
                  Py.dict_in time day_schedule = true
                  /\ tables r = n
                  /\ available r = (0 <? n)
                  /\ reason r = (if available r then ok else fully_booked)
              end
       end
    /\ check_availability date time (snd (check_availability date time s))
       = check_availability date time s.
Proof.
  rewrite check_availability_run. eexists. split; [reflexivity|].
  split; [|simpl snd; now rewrite check_availability_run].
  unfold Py.dict_in.
  destruct (Py.dict_get s date) as [sch|]; [|auto].
  split; [reflexivity|].
  destruct (Py.dict_get sch time) as [n|]; simpl; auto.
Qed.

(** ** The alternative suggester *)

Lemma available_slots_filter (sch : Schedule) :
  available_slots sch
  = map (fun tc => slot_text (fst tc) (snd tc)) (filter has_tables sch).
Proof.
  induction sch as [|[t c] sch IH]; simpl; [reflexivity|].
  unfold has_tables at 1. simpl snd.
  destruct (0 <? c); simpl; now rewrite IH.
Qed.

Lemma collect_other_dates_run (date : string) (items : Store)
    (acc : list string) :
  collect_other_dates date items acc
  = inr (acc ++ map (fun ds => format_date (fst ds))
                    (filter (other_with_capacity date) items))%list.
Proof.
  revert acc. induction items as [|[d sch] items IH]; intros acc; simpl.
  - now rewrite app_nil_r.
  - unfold other_with_capacity at 1. simpl fst. simpl snd.
    destruct (negb (String.eqb d date)); simpl andb; [|apply IH].
    destruct (0 <? Py.sum (Py.values sch)); [|apply IH].
    rewrite _format_date_returns, IH. simpl. now rewrite <- app_assoc.
Qed.

Lemma suggest_other_dates_run (s : Store) (date : string) :
  suggest_other_dates date s =
  (inr match filter (other_with_capacity date) s with
       | [] => no_tables_text
       | (_ :: _) as others =>
           "📋 No availability on " ++ format_date date
           ++ ". Try these dates instead: "
           ++ Py.join ", " (map (fun ds => format_date (fst ds)) others)
       end, s).
Proof.
  unfold suggest_other_dates. run.
  rewrite collect_other_dates_run. cbn [app].
  destruct (filter (other_with_capacity date) s) as [|o os]; [reflexivity|].
  cbn [map]. cbv iota. now rewrite _format_date_returns.
Qed.

Lemma suggest_alternative_run (s : Store) (date : string) :
  suggest_alternative date s =
  (inr match filter has_tables
               match Py.dict_get s date with
               | Some day_schedule => day_schedule
               | None => []
               end with
       | (_ :: _) as slots =>
           "📋 Available times on " ++ format_date date ++ ": "
           ++ Py.join ", " (map (fun tc => slot_text (fst tc) (snd tc)) slots)
       | [] =>
           match filter (other_with_capacity date) s with
           | [] => no_tables_text
           | (_ :: _) as others =>
               "📋 No availability on " ++ format_date date
               ++ ". Try these dates instead: "
               ++ Py.join ", " (map (fun ds => format_date (fst ds)) others)
           end
       end, s).
Proof.
  unfold suggest_alternative, Py.dict_in, Py.getitem. run.
  destruct (Py.dict_get s date) as [sch|]; cbv iota beta.
  - rewrite available_slots_filter.
    destruct (filter has_tables sch) as [|x xs].
    + cbn [map]. cbv iota. apply suggest_other_dates_run.
    + cbn [map]. cbv iota. now rewrite _format_date_returns.
  - cbn [filter]. apply suggest_other_dates_run.
Qed.

Lemma suggest_alternative_returns (s : Store) (date : string) :
  suggest_alternative date s = (inr (suggested s date), s).
Proof.
  unfold suggested. now rewrite suggest_alternative_run.
Qed.

(** ** The reservation committer *)

Lemma book_table_invalid (s : Store) (date time : string) (guests : Z) :
  guests <= 0 -> book_table date time guests s = (inr guests_error_text, s).
Proof.
  intros H. unfold book_table.
  apply Z.leb_le in H. now rewrite H.
Qed.

Lemma book_table_no_date (s : Store) (date time : string) (guests : Z) :
  0 < guests -> Py.dict_get s date = None ->
  book_table date time guests s =
  (inr ("🚫 Sorry, we don't have availability data for " ++ format_date date
        ++ ". " ++ suggested s date), s).
Proof.
  intros Hg Hd. unfold book_table.
  apply Z.leb_gt in Hg. rewrite Hg.
  unfold bind at 1. rewrite check_availability_run, Hd. cbv iota beta.
  cbn [reason available Reason_eqb negb].
  unfold bind at 1. rewrite suggest_alternative_returns. cbv iota beta.
  run. now rewrite _format_date_returns.
Qed.

Lemma book_table_no_time (s : Store) (date time : string) (guests : Z)
    (sch : Schedule) :
  0 < guests -> Py.dict_get s date = Some sch -> Py.dict_get sch time = None ->
  book_table date time guests s =
  (inr ("🚫 Sorry, we don't offer reservations at " ++ time ++ " on "
        ++ format_date date ++ ". " ++ suggested s date), s).
Proof.
  intros Hg Hd Ht. unfold book_table.
  apply Z.leb_gt in Hg. rewrite Hg.
  unfold bind at 1. rewrite check_availability_run, Hd, Ht. cbv iota beta.
  cbn [reason available Reason_eqb negb].
  unfold bind at 1. rewrite suggest_alternative_returns. cbv iota beta.
  run. now rewrite _format_date_returns.
Qed.

Lemma book_table_full (s : Store) (date time : string) (guests : Z)
    (sch : Schedule) (n : Z) :
  0 < guests -> Py.dict_get s date = Some sch ->
  Py.dict_get sch time = Some n -> n <= 0 ->
  book_table date time guests s =
  (inr ("🚫 Sorry, no tables are available at " ++ time ++ " on "
        ++ format_date date ++ ". " ++ suggested s date), s).
Proof.
  intros Hg Hd Ht Hn. unfold book_table.
  apply Z.leb_gt in Hg. rewrite Hg.
  unfold bind at 1. rewrite check_availability_run, Hd, Ht. cbv iota beta.
  assert (E : (0 <? n) = false) by (apply Z.ltb_ge; lia).
  cbn [reason available]. rewrite E. cbn [Reason_eqb negb].
  unfold bind at 1. rewrite suggest_alternative_returns. cbv iota beta.
  run. now rewrite _format_date_returns.
Qed.

Lemma book_table_ok (s : Store) (date time : string) (guests : Z)
    (sch : Schedule) (n : Z) :
  0 < guests -> Py.dict_get s date = Some sch ->
  Py.dict_get sch time = Some n -> 0 < n ->
  book_table date time guests s =
  (inr ("✅ Reservation confirmed!" ++ nl ++ nl
        ++ "📅 Date: " ++ format_date date ++ nl
        ++ "🕐 Time: " ++ time ++ nl
        ++ "👥 Guests: " ++ Py.str guests ++ nl ++ nl
        ++ "🍕 We look forward to welcoming you at Bella Roma! "
        ++ remaining_text (n - 1)),
   Py.setitem s date (Py.setitem sch time (n - 1))).
Proof.
  intros Hg Hd Ht Hn. unfold book_table.
  apply Z.leb_gt in Hg. rewrite Hg.
  unfold bind at 1. rewrite check_availability_run, Hd, Ht. cbv iota beta.
  assert (E : (0 <? n) = true) by (apply Z.ltb_lt; lia).
  cbn [reason available]. rewrite E. cbn [Reason_eqb negb].
  unfold Py.getitem. run. rewrite Hd. cbv iota beta. rewrite Ht. cbv iota beta.
  rewrite dict_get_setitem_same. cbv iota beta.
  rewrite dict_get_setitem_same. cbv iota beta.
  now rewrite _format_date_returns.
Qed.

(** ** Slots of the store *)

Lemma slot_count_with_same (s : Store) (date time : string) (sch : Schedule)
    (v : Z) :
  slot_count (Py.setitem s date (Py.setitem sch time v)) date time = Some v.
Proof.
  unfold slot_count. rewrite dict_get_setitem_same.
  apply dict_get_setitem_same.
Qed.

Lemma slot_count_with_other (s : Store) (date time : string) (sch : Schedule)
    (v : Z) (d t : string) :
  Py.dict_get s date = Some sch -> (d, t) <> (date, time) ->
  slot_count (Py.setitem s date (Py.setitem sch time v)) d t
  = slot_count s d t.
Proof.
  intros Hd Hne. unfold slot_count.
  destruct (String.eqb_spec d date) as [->|Hd'].
  - rewrite dict_get_setitem_same, Hd.
    apply dict_get_setitem_other. congruence.
  - now rewrite dict_get_setitem_other.
Qed.

Lemma schedule_keys_with (s : Store) (date time : string) (sch : Schedule)
    (v n : Z) (d : string) :
  Py.dict_get s date = Some sch -> Py.dict_get sch time = Some n ->
  option_map Py.keys
    (Py.dict_get (Py.setitem s date (Py.setitem sch time v)) d)
  = option_map Py.keys (Py.dict_get s d).
Proof.
  intros Hd Ht.
  destruct (String.eqb_spec d date) as [->|Hd'].
  - rewrite dict_get_setitem_same, Hd. simpl. f_equal.
    eapply keys_setitem_present; eauto.
  - now rewrite dict_get_setitem_other.
Qed.

Lemma slot_count_inv (s : Store) (date time : string) (n : Z) :
  slot_count s date time = Some n ->
  exists sch, Py.dict_get s date = Some sch /\ Py.dict_get sch time = Some n.
Proof.
  unfold slot_count. destruct (Py.dict_get s date) as [sch|]; [|discriminate].
  eauto.
Qed.

(** C2. When [book_table] succeeds (guests > 0, the slot exists and its
    count is above 0) the count of that slot goes down by exactly 1, every
    other slot of every date keeps its count, no key is added or removed,
    and the confirmation ends with the remaining count after the
    decrement. *)
Theorem book_table_success (s : Store) (date time : string) (guests n : Z) :
  0 < guests -> slot_count s date time = Some n -> 0 < n ->
  let s' := snd (book_table date time guests s) in
  (exists pre,
      fst (book_table date time guests s)
      = inr (pre ++ "(" ++ Py.str (n - 1) ++ " table" ++ plural (n - 1)
                 ++ " remaining for this slot)"))
  /\ slot_count s' date time = Some (n - 1)
  /\ (forall d t, (d, t) <> (date, time) ->
                  slot_count s' d t = slot_count s d t)
  /\ Py.keys s' = Py.keys s
  /\ (forall d, option_map Py.keys (Py.dict_get s' d)
                = option_map Py.keys (Py.dict_get s d)).
Proof.
  intros Hg Hn Hpos.
  destruct (slot_count_inv _ _ _ _ Hn) as (sch & Hd & Ht).
  rewrite (book_table_ok s date time guests sch n Hg Hd Ht Hpos).
  cbn [fst snd]. repeat split.
  - eexists ("✅ Reservation confirmed!" ++ nl ++ nl
             ++ "📅 Date: " ++ format_date date ++ nl
             ++ "🕐 Time: " ++ time ++ nl
             ++ "👥 Guests: " ++ Py.str guests ++ nl ++ nl
             ++ "🍕 We look forward to welcoming you at Bella Roma! ").
    unfold remaining_text. now rewrite ?append_assoc.
  - apply slot_count_with_same.
  - intros d t Hne. now apply slot_count_with_other.
  - eapply keys_setitem_present; eauto.
  - intros d. eapply schedule_keys_with; eauto.
Qed.

Lemma book_table_success_witness :
  let s' := snd (book_table "2026-02-20" "19:00" 4 scenario_store) in
  (exists pre,
      fst (book_table "2026-02-20" "19:00" 4 scenario_store)
      = inr (pre ++ "(" ++ Py.str (2 - 1) ++ " table" ++ plural (2 - 1)
                 ++ " remaining for this slot)"))
  /\ slot_count s' "2026-02-20" "19:00" = Some (2 - 1)
  /\ (forall d t, (d, t) <> ("2026-02-20", "19:00") ->
                  slot_count s' d t = slot_count scenario_store d t)
  /\ Py.keys s' = Py.keys scenario_store
  /\ (forall d, option_map Py.keys (Py.dict_get s' d)
                = option_map Py.keys (Py.dict_get scenario_store d)).
Proof.
  apply (book_table_success scenario_store "2026-02-20" "19:00" 4 2).
  - lia.
  - reflexivity.
  - lia.
Defined.

(** C4. [book_table] changes the store exactly when it succeeds.  With
    guests <= 0 it returns the validation message and the store is as
    before; when the availability check gives a reason other than [ok] it
    returns a failure message that embeds the formatted date followed by
    what [suggest_alternative] returns for that date, the store as before;
    and in every case it returns a message, it raises nothing. *)
Theorem book_table_failure_paths (s : Store) (date time : string)
    (guests : Z) :
  (guests <= 0 ->
   book_table date time guests s = (inr guests_error_text, s))
  /\ (0 < guests ->
      forall r, fst (check_availability date time s) = inr r ->
      reason r <> ok ->
      suggest_alternative date s = (inr (suggested s date), s)
      /\ exists pre,
           book_table date time guests s
           = (inr (pre ++ format_date date ++ ". " ++ suggested s date), s))
  /\ (exists msg, fst (book_table date time guests s) = inr msg)
  /\ (snd (book_table date time guests s) <> s
      <-> 0 < guests
          /\ exists n, slot_count s date time = Some n /\ 0 < n).
Proof.
  split; [apply book_table_invalid|].
  destruct (Z.le_gt_cases guests 0) as [Hg|Hg].
  { rewrite (book_table_invalid _ _ _ _ Hg). cbn [fst snd].
    split; [lia|]. split; [eauto|]. split; [congruence|lia]. }
  unfold slot_count.
  destruct (Py.dict_get s date) as [sch|] eqn:Hd.
  2:{ rewrite (book_table_no_date _ _ time _ Hg Hd). cbn [fst snd].
      split; [|split; [eauto|]].
      - intros _ r _ _. split; [apply suggest_alternative_returns|].
        exists "🚫 Sorry, we don't have availability data for ".
        now rewrite ?append_assoc.
      - split; [congruence|]. intros (_ & n & Hn & _). discriminate. }
  destruct (Py.dict_get sch time) as [n|] eqn:Ht.
  2:{ rewrite (book_table_no_time _ _ _ _ _ Hg Hd Ht). cbn [fst snd].
      split; [|split; [eauto|]].
      - intros _ r _ _. split; [apply suggest_alternative_returns|].
        exists ("🚫 Sorry, we don't offer reservations at " ++ time ++ " on ").
        now rewrite ?append_assoc.
      - split; [congruence|]. intros (_ & n & Hn & _). discriminate. }
  destruct (Z.le_gt_cases n 0) as [Hn|Hn].
  { rewrite (book_table_full _ _ _ _ _ _ Hg Hd Ht Hn). cbn [fst snd].
    split; [|split; [eauto|]].
    - intros _ r _ _. split; [apply suggest_alternative_returns|].
      exists ("🚫 Sorry, no tables are available at " ++ time ++ " on ").
      now rewrite ?append_assoc.
    - split; [congruence|]. intros (_ & n' & Hn' & Hpos).
      injection Hn' as <-. lia. }
  rewrite (book_table_ok _ _ _ _ _ _ Hg Hd Ht Hn). cbn [fst snd].
  split; [|split; [eauto|]].
  - intros _ r Hr Hne. exfalso. apply Hne.
    rewrite check_availability_run, Hd, Ht in Hr. cbn [fst] in Hr.
    injection Hr as <-. cbn [reason].
    apply Z.ltb_lt in Hn. now rewrite Hn.
  - split; [eauto|]. intros _ Heq.
    pose proof (slot_count_with_same s date time sch (n - 1)) as H1.
    rewrite Heq in H1. unfold slot_count in H1. rewrite Hd, Ht in H1.
    injection H1. lia.
Qed.

(** C10. The guest count plays no part in capacity.  For any two party
    sizes of at least 1, [book_table] leaves the same store; when the slot
    has a table the two runs both succeed, take exactly one table, and
    their confirmations differ only where the guest count is printed; when
    it has none the two runs return the same failure message and the store
    is untouched. *)
Theorem book_table_guests_irrelevant (s : Store) (date time : string)
    (g1 g2 : Z) :
  1 <= g1 -> 1 <= g2 ->
  snd (book_table date time g1 s) = snd (book_table date time g2 s)
  /\ match slot_count s date time with
     | Some n =>
         if 0 <? n then
           slot_count (snd (book_table date time g1 s)) date time
           = Some (n - 1)
           /\ exists pre post,
                fst (book_table date time g1 s)
                = inr (pre ++ Py.str g1 ++ post)
                /\ fst (book_table date time g2 s)
                   = inr (pre ++ Py.str g2 ++ post)
         else book_table date time g1 s = book_table date time g2 s
              /\ snd (book_table date time g1 s) = s
     | None => book_table date time g1 s = book_table date time g2 s
               /\ snd (book_table date time g1 s) = s
     end.
Proof.
  intros H1 H2.
  assert (Hg1 : 0 < g1) by lia. assert (Hg2 : 0 < g2) by lia.
  unfold slot_count.
  destruct (Py.dict_get s date) as [sch|] eqn:Hd.
  2:{ now rewrite (book_table_no_date _ _ time _ Hg1 Hd),
        (book_table_no_date _ _ time _ Hg2 Hd). }
  destruct (Py.dict_get sch time) as [n|] eqn:Ht.
  2:{ now rewrite (book_table_no_time _ _ _ _ _ Hg1 Hd Ht),
        (book_table_no_time _ _ _ _ _ Hg2 Hd Ht). }
  destruct (0 <? n) eqn:En.
  - apply Z.ltb_lt in En.
    rewrite (book_table_ok _ _ _ _ _ _ Hg1 Hd Ht En).
    rewrite (book_table_ok _ _ _ _ _ _ Hg2 Hd Ht En). cbn [fst snd].
    split; [reflexivity|]. split; [apply slot_count_with_same|].
    exists ("✅ Reservation confirmed!" ++ nl ++ nl
            ++ "📅 Date: " ++ format_date date ++ nl
            ++ "🕐 Time: " ++ time ++ nl ++ "👥 Guests: ").
    exists (nl ++ nl
            ++ "🍕 We look forward to welcoming you at Bella Roma! "
            ++ remaining_text (n - 1)).
    now rewrite ?append_assoc.
  - apply Z.ltb_ge in En.
    now rewrite (book_table_full _ _ _ _ _ _ Hg1 Hd Ht En),
      (book_table_full _ _ _ _ _ _ Hg2 Hd Ht En).
Qed.

Lemma book_table_guests_irrelevant_witness :
  snd (book_table "2026-02-20" "19:00" 1 scenario_store)
  = snd (book_table "2026-02-20" "19:00" 100 scenario_store)
  /\ match slot_count scenario_store "2026-02-20" "19:00" with
     | Some n =>
         if 0 <? n then
           slot_count (snd (book_table "2026-02-20" "19:00" 1 scenario_store))
                      "2026-02-20" "19:00"
           = Some (n - 1)
           /\ exists pre post,
                fst (book_table "2026-02-20" "19:00" 1 scenario_store)
                = inr (pre ++ Py.str 1 ++ post)
                /\ fst (book_table "2026-02-20" "19:00" 100 scenario_store)
                   = inr (pre ++ Py.str 100 ++ post)
         else book_table "2026-02-20" "19:00" 1 scenario_store
              = book_table "2026-02-20" "19:00" 100 scenario_store
              /\ snd (book_table "2026-02-20" "19:00" 1 scenario_store)
                 = scenario_store
     | None => book_table "2026-02-20" "19:00" 1 scenario_store
               = book_table "2026-02-20" "19:00" 100 scenario_store
               /\ snd (book_table "2026-02-20" "19:00" 1 scenario_store)
                  = scenario_store
     end.
Proof.
  apply (book_table_guests_irrelevant scenario_store "2026-02-20" "19:00"
           1 100); lia.
Defined.

(** ** The orchestrator *)

Lemma format_dates_run (ds : list string) :
  format_dates ds = inr (map format_date ds).
Proof.
  induction ds as [|d ds IH]; simpl; [reflexivity|].
  now rewrite _format_date_returns, IH.
Qed.

Lemma handle_message_raises (m : string) (s : Store) (e : Py.exn) :
  extract_slots m = inl e -> handle_message m s = (inl e, s).
Proof.
  intros H. unfold handle_message. now rewrite bind_lift, H.
Qed.

Lemma handle_message_check (m : string) (s : Store) (sl : Slots) :
  extract_slots m = inr sl ->
  Py.any_in check_words (Py.lower m) = true ->
  (truthy (slot_time sl) = false ->
   handle_message m s = (inr (suggested s (slot_date sl)), s))
  /\ exists text, handle_message m s = (inr text, s).
Proof.
  intros H Hc. unfold handle_message. rewrite bind_lift, H.
  cbv beta iota zeta. rewrite Hc.
  destruct (truthy (slot_time sl)).
  - split; [discriminate|].
    rewrite (bind_returns _ _ _ _ _ (check_availability_run _ _ _)).
    match goal with
    | |- context [available ?r] => destruct (available r)
    end.
    + rewrite bind_lift, _format_date_returns. unfold ret. eauto.
    + rewrite (bind_returns _ _ _ _ _ (suggest_alternative_returns _ _)).
      rewrite bind_lift, _format_date_returns. unfold ret. eauto.
  - rewrite suggest_alternative_returns. eauto.
Qed.

Lemma handle_message_book (m : string) (s : Store) (sl : Slots) :
  extract_slots m = inr sl ->
  Py.any_in check_words (Py.lower m) = false ->
  Py.any_in book_words (Py.lower m) = true ->
  handle_message m s =
  if negb (truthy (slot_time sl)) then (inr time_prompt, s)
  else if slot_guests sl =? 0 then
    (inr (guests_prompt (show_time (slot_time sl))
                        (format_date (slot_date sl))), s)
  else book_table (slot_date sl) (show_time (slot_time sl))
                  (slot_guests sl) s.
Proof.
  intros H Hc Hb. unfold handle_message. rewrite bind_lift, H.
  cbv beta iota zeta. rewrite Hc, Hb.
  destruct (negb (truthy (slot_time sl))); [reflexivity|].
  destruct (slot_guests sl =? 0); [|reflexivity].
  now rewrite bind_lift, _format_date_returns.
Qed.

Lemma handle_message_help (m : string) (s : Store) (sl : Slots) :
  extract_slots m = inr sl ->
  Py.any_in check_words (Py.lower m) = false ->
  Py.any_in book_words (Py.lower m) = false ->
  handle_message m s
  = (inr (help_text (Py.join ", " (map format_date (Py.keys s)))), s).
Proof.
  intros H Hc Hb. unfold handle_message. rewrite bind_lift, H.
  cbv beta iota zeta. rewrite Hc, Hb.
  rewrite (bind_returns get _ s s s eq_refl).
  now rewrite bind_lift, format_dates_run.
Qed.

(** ** The store invariant *)

Lemma handle_message_store (m : string) (s : Store) :
  snd (handle_message m s) = s
  \/ exists d t g, snd (handle_message m s) = snd (book_table d t g s).
Proof.
  destruct (extract_slots m) as [e|sl] eqn:H.
  { left. now rewrite (handle_message_raises _ _ _ H). }
  destruct (Py.any_in check_words (Py.lower m)) eqn:Hc.
  { left. destruct (handle_message_check m s sl H Hc) as (_ & text & ->).
    reflexivity. }
  destruct (Py.any_in book_words (Py.lower m)) eqn:Hb.
  - rewrite (handle_message_book m s sl H Hc Hb).
    destruct (negb (truthy (slot_time sl))); [now left|].
    destruct (slot_guests sl =? 0); [now left|]. right. eauto.
  - left. now rewrite (handle_message_help m s sl H Hc Hb).
Qed.

Lemma book_table_store (s : Store) (date time : string) (guests : Z) :
  snd (book_table date time guests s) = s
  \/ exists sch n,
       Py.dict_get s date = Some sch /\ Py.dict_get sch time = Some n
       /\ 0 < n
       /\ snd (book_table date time guests s)
          = Py.setitem s date (Py.setitem sch time (n - 1)).
Proof.
  destruct (Z.le_gt_cases guests 0) as [Hg|Hg].
  { left. now rewrite book_table_invalid. }
  destruct (Py.dict_get s date) as [sch|] eqn:Hd.
  2:{ left. now rewrite book_table_no_date. }
  destruct (Py.dict_get sch time) as [n|] eqn:Ht.
  2:{ left. now rewrite (book_table_no_time _ _ _ _ _ Hg Hd Ht). }
  destruct (Z.le_gt_cases n 0) as [Hn|Hn].
  { left. now rewrite (book_table_full _ _ _ _ _ _ Hg Hd Ht Hn). }
  right. exists sch, n.
  now rewrite (book_table_ok _ _ _ _ _ _ Hg Hd Ht Hn).
Qed.

(** One operation leaves the store alone or takes one table from a slot
    that had one. *)
Lemma run_op_step (o : op) (s : Store) :
  run_op o s = s
  \/ exists date time sch n,
       Py.dict_get s date = Some sch /\ Py.dict_get sch time = Some n
       /\ 0 < n
       /\ run_op o s = Py.setitem s date (Py.setitem sch time (n - 1)).
Proof.
  destruct o as [d t|d t g|d|m]; simpl.
  - left. now rewrite check_availability_run.
  - destruct (book_table_store s d t g) as [H|(sch & n & H)]; [now left|].
    right. exists d, t, sch, n. exact H.
  - left. now rewrite suggest_alternative_returns.
  - destruct (handle_message_store m s) as [H|(d & t & g & H)]; [now left|].
    rewrite H.
    destruct (book_table_store s d t g) as [H'|(sch & n & H')]; [now left|].
    right. exists d, t, sch, n. exact H'.
Qed.

Lemma nonneg_store_step (s : Store) (date time : string) (sch : Schedule)
    (n : Z) :
  nonneg_store s -> Py.dict_get s date = Some sch -> 0 < n ->
  nonneg_store (Py.setitem s date (Py.setitem sch time (n - 1))).
Proof.
  intros Hs Hd Hn. unfold nonneg_store.
  apply (Forall_setitem nonneg_schedule); [exact Hs|].
  unfold nonneg_schedule.
  apply (Forall_setitem (fun c => 0 <= c)); [|lia].
  apply dict_get_In in Hd. unfold nonneg_store in Hs.
  rewrite Forall_forall in Hs. exact (Hs _ Hd).
Qed.

Lemma run_op_nonneg (o : op) (s : Store) :
  nonneg_store s -> nonneg_store (run_op o s).
Proof.
  intros Hs.
  destruct (run_op_step o s) as [->|(d & t & sch & n & Hd & Ht & Hn & ->)];
    [assumption|].
  now apply nonneg_store_step.
Qed.

Lemma run_op_zero (o : op) (s : Store) (date time : string) :
  slot_count s date time = Some 0 ->
  slot_count (run_op o s) date time = Some 0.
Proof.
  intros H0.
  destruct (run_op_step o s) as [->|(d & t & sch & n & Hd & Ht & Hn & ->)];
    [assumption|].
  rewrite slot_count_with_other; [assumption|assumption|].
  intros E. injection E as -> ->.
  unfold slot_count in H0. rewrite Hd, Ht in H0. injection H0. lia.
Qed.

(** C3. From a store whose counts are all at least 0, any finite sequence
    of [check_availability], [book_table], [suggest_alternative] and
    [handle_message] calls ends in a store whose counts are all at least 0;
    and a slot that stands at 0 still stands at 0 afterwards. *)
Theorem counts_never_negative (os : list op) (s : Store) :
  nonneg_store s ->
  nonneg_store (run_ops os s)
  /\ forall date time,
       slot_count s date time = Some 0 ->
       slot_count (run_ops os s) date time = Some 0.
Proof.
  unfold run_ops. revert s.
  induction os as [|o os IH]; intros s Hs; simpl; [auto|].
  destruct (IH (run_op o s) (run_op_nonneg o s Hs)) as [H1 H2].
  split; [exact H1|].
  intros date time H0. apply H2. now apply run_op_zero.
Qed.

Lemma counts_never_negative_witness :
  nonneg_store
    (run_ops [BookTable "2026-02-20" "19:00" 4;
              HandleMessage "book a table for 2 at 19:00";
              BookTable "2026-02-20" "19:00" 3;
              CheckAvailability "2026-02-20" "19:00";
              SuggestAlternative "2026-02-20"] scenario_store)
  /\ forall date time,
       slot_count scenario_store date time = Some 0 ->
       slot_count
         (run_ops [BookTable "2026-02-20" "19:00" 4;
                   HandleMessage "book a table for 2 at 19:00";
                   BookTable "2026-02-20" "19:00" 3;
                   CheckAvailability "2026-02-20" "19:00";
                   SuggestAlternative "2026-02-20"] scenario_store)
         date time = Some 0.
Proof.
  apply (counts_never_negative
           [BookTable "2026-02-20" "19:00" 4;
            HandleMessage "book a table for 2 at 19:00";
            BookTable "2026-02-20" "19:00" 3;
            CheckAvailability "2026-02-20" "19:00";
            SuggestAlternative "2026-02-20"] scenario_store).
  repeat constructor; simpl; lia.
Defined.

(** C6. [suggest_alternative] leaves the store as it was.  The slots it
    lists for the date are exactly the entries of that date whose count is
    above 0, in the store's order; if there is none, the dates it lists are
    exactly the other dates whose counts sum to more than 0, in the store's
    order; if there is none of those either it returns the fixed
    no-availability text.  So no slot with count 0 and no date with total 0
    is ever listed. *)
Theorem suggest_alternative_spec (s : Store) (date : string) :
  let day := match Py.dict_get s date with
             | Some day_schedule => day_schedule
             | None => []
             end in
  let slots := filter has_tables day in
  let others := filter (other_with_capacity date) s in
  suggest_alternative date s = (inr (suggested s date), s)
  /\ suggested s date
     = match slots, others with
       | _ :: _, _ =>
           "📋 Available times on " ++ format_date date ++ ": "
           ++ Py.join ", " (map (fun tc => slot_text (fst tc) (snd tc)) slots)
       | [], _ :: _ =>
           "📋 No availability on " ++ format_date date
           ++ ". Try these dates instead: "
           ++ Py.join ", " (map (fun ds => format_date (fst ds)) others)
       | [], [] => no_tables_text
       end
  /\ (forall t c, In (t, c) slots <-> In (t, c) day /\ 0 < c)
  /\ (forall d sch,
        In (d, sch) others
        <-> In (d, sch) s /\ d <> date /\ 0 < Py.sum (Py.values sch)).
Proof.
  intros day slots others.
  split; [apply suggest_alternative_returns|].
  split.
  - unfold suggested. rewrite suggest_alternative_run. cbn [fst].
    subst slots others day.
    destruct (filter has_tables _);
      [destruct (filter (other_with_capacity date) s)|]; reflexivity.
  - split.
    + intros t c. unfold slots. rewrite filter_In.
      unfold has_tables. cbn [snd]. now rewrite Z.ltb_lt.
    + intros d sch. unfold others. rewrite filter_In.
      unfold other_with_capacity. cbn [fst snd].
      rewrite andb_true_iff, negb_true_iff, String.eqb_neq, Z.ltb_lt.
      tauto.
Qed.

(** ** Loading the store *)




(** ** Regular expressions *)

Lemma starts_with_split (l s : string) :
  Py.starts_with l s = true -> s = l ++ Py.drop (String.length l) s.
Proof.
  revert s. induction l as [|a l IH]; intros s; simpl; [reflexivity|].
  destruct s as [|b s]; [discriminate|].
  rewrite andb_true_iff, Ascii.eqb_eq. intros [-> H].
  f_equal. auto.
Qed.

Lemma starts_with_append (l x : string) : Py.starts_with l (l ++ x) = true.
Proof.
  induction l as [|a l IH]; simpl; [reflexivity|].
  now rewrite Ascii.eqb_refl.
Qed.

Lemma drop_append (l x : string) : Py.drop (String.length l) (l ++ x) = x.
Proof. induction l as [|a l IH]; simpl; auto. Qed.

Lemma within_pred (hi : option nat) (n : nat) :
  Re.more hi = true -> Re.within (option_map Nat.pred hi) n ->
  Re.within hi (S n).
Proof.
  destruct hi as [[|h]|]; simpl; try discriminate; auto. lia.
Qed.

Lemma rep_match_sound {R : Type} (p : ascii -> bool) (s : string) :
  forall (lo : nat) (hi : option nat) (k : string -> string -> option R)
         (x : R),
    Re.rep_match p lo hi s k = Some x ->
    exists m rest,
      s = m ++ rest /\ Py.all_chars p m = true
      /\ (lo <= String.length m)%nat /\ Re.within hi (String.length m)
      /\ k m rest = Some x.
Proof.
  assert (Hstop : forall lo hi (k : string -> string -> option R) x s0,
             match lo with O => k "" s0 | S _ => None end = Some x ->
             exists m rest,
               s0 = m ++ rest /\ Py.all_chars p m = true
               /\ (lo <= String.length m)%nat
               /\ Re.within hi (String.length m) /\ k m rest = Some x).
  { intros lo hi k x s0 H. destruct lo; [|discriminate].
    exists "", s0. repeat split; auto.
    destruct hi; simpl; auto. lia. }
  induction s as [|c s IH]; intros lo hi k x; simpl.
  - apply Hstop.
  - destruct (p c && Re.more hi) eqn:E; [|apply Hstop].
    apply andb_true_iff in E. destruct E as [Hc Hm].
    destruct (Re.rep_match p (Nat.pred lo) (option_map Nat.pred hi) s
                (fun m rest => k (String c m) rest)) as [y|] eqn:Hr;
      [|apply Hstop].
    intros Hx. injection Hx as ->.
    apply IH in Hr. destruct Hr as (m & rest & -> & Hall & Hlo & Hhi & Hk).
    exists (String c m), rest. simpl. rewrite Hc, Hall.
    repeat split; auto; [lia|]. now apply within_pred.
Qed.

Lemma rmatch_sound {R : Type} (r : Re.regex) :
  forall (s cap : string) (k : string -> string -> string -> option R)
         (x : R),
    Re.rmatch r s cap k = Some x ->
    exists m rest cap',
      s = m ++ rest /\ Re.Matches r m cap cap' /\ k m rest cap' = Some x.
Proof.
  induction r as [l|c lo hi|r1 IH1 r2 IH2|r1 IH1 r2 IH2|r IH];
    intros s cap k x; simpl.
  - destruct (Py.starts_with l s) eqn:E; [|discriminate].
    intros H. exists l, (Py.drop (String.length l) s), cap.
    split; [now apply starts_with_split|]. split; [constructor|exact H].
  - intros H. apply rep_match_sound in H.
    destruct H as (m & rest & -> & Hall & Hlo & Hhi & Hk).
    exists m, rest, cap. split; [reflexivity|].
    split; [now constructor|exact Hk].
  - intros H. apply IH1 in H.
    destruct H as (m1 & s1 & c1 & -> & HM1 & H).
    apply IH2 in H. destruct H as (m2 & s2 & c2 & -> & HM2 & H).
    exists (m1 ++ m2), s2, c2. split; [now rewrite append_assoc|].
    split; [econstructor; eauto|exact H].
  - destruct (Re.rmatch r1 s cap k) as [y|] eqn:E1.
    + intros Hx. injection Hx as ->. apply IH1 in E1.
      destruct E1 as (m & rest & c' & -> & HM & Hk).
      exists m, rest, c'. split; [reflexivity|].
      split; [now apply Re.M_AltL|exact Hk].
    + intros H. apply IH2 in H.
      destruct H as (m & rest & c' & -> & HM & Hk).
      exists m, rest, c'. split; [reflexivity|].
      split; [now apply Re.M_AltR|exact Hk].
  - intros H. apply IH in H.
    destruct H as (m & rest & c' & -> & HM & Hk).
    exists m, rest, m. split; [reflexivity|].
    split; [econstructor; eauto|exact Hk].
Qed.

Lemma match_at_sound (r : Re.regex) (s g : string) :
  Re.match_at r s = Some g ->
  exists m rest, s = m ++ rest /\ Re.Matches r m "" g.
Proof.
  unfold Re.match_at. intros H. apply rmatch_sound in H.
  destruct H as (m & rest & c' & -> & HM & Hk). injection Hk as ->.
  eauto.
Qed.


Lemma search_first (r : Re.regex) (pre q g : string) :
  Re.match_at r q = Some g ->
  (forall pre' q', pre ++ q = pre' ++ q' ->
     (String.length pre' < String.length pre)%nat ->
     Re.match_at r q' = None) ->
  Re.search r (pre ++ q) = Some g.
Proof.
  intros Hq. induction pre as [|c pre IH]; intros Hno.
  - simpl. destruct q; simpl; now rewrite Hq.
  - change (Re.search r (String c (pre ++ q)) = Some g). cbn [Re.search].
    rewrite (Hno "" (String c (pre ++ q)) eq_refl) by (simpl; lia).
    apply IH. intros pre' q' E Hlt.
    apply (Hno (String c pre') q'); simpl; [now rewrite E|lia].
Qed.

(** Greedy repetition takes the whole run when the continuation accepts
    it. *)
Lemma rep_match_run {R : Type} (p : ascii -> bool) (run : string) :
  forall (rest : string) (lo : nat) (k : string -> string -> option R)
         (x : R),
    Py.all_chars p run = true -> Py.starts_in p rest = false ->
    (lo <= String.length run)%nat -> k run rest = Some x ->
    Re.rep_match p lo None (run ++ rest) k = Some x.
Proof.
  induction run as [|c run IH]; intros rest lo k x Hall Hrest Hlo Hk.
  - simpl in Hlo. assert (lo = 0%nat) by lia. subst lo.
    destruct rest as [|d rest]; simpl; [exact Hk|].
    simpl in Hrest. now rewrite Hrest.
  - simpl in Hall. apply andb_true_iff in Hall. destruct Hall as [Hc Hall].
    cbn [append Re.rep_match]. rewrite Hc. cbn [andb Re.more option_map].
    rewrite (IH rest (Nat.pred lo) (fun m r => k (String c m) r) x);
      auto.
    simpl in Hlo. lia.
Qed.

(** ** Characters *)

Lemma is_digit_range (c : ascii) :
  Py.is_digit c = true <-> (48 <= Py.code c <= 57)%N.
Proof.
  unfold Py.is_digit. rewrite andb_true_iff, !N.leb_le. tauto.
Qed.

Lemma digit_not_space (c : ascii) :
  Py.is_digit c = true -> Py.is_space c = false.
Proof.
  rewrite is_digit_range. intros H. unfold Py.is_space.
  apply orb_false_iff. split; apply andb_false_iff.
  - right. apply N.leb_gt. lia.
  - right. apply N.leb_gt. lia.
Qed.

Lemma digit_not_colon (c : ascii) :
  Py.is_digit c = true -> Ascii.eqb c ":" = false.
Proof.
  intros H. apply Ascii.eqb_neq. intros ->. discriminate.
Qed.



(** ** [str.split] on a time *)

Lemma split_digits (s : string) :
  Py.all_digits s = true -> Py.split ":" s = [s].
Proof.
  unfold Py.all_digits.
  induction s as [|c s IH]; cbn [Py.all_chars Py.split]; [reflexivity|].
  intros H. apply andb_true_iff in H. destruct H as [Hc Hs].
  rewrite (digit_not_colon _ Hc). now rewrite (IH Hs).
Qed.

Lemma split_time (h mm : string) :
  Py.all_digits h = true -> Py.all_digits mm = true ->
  Py.split ":" (h ++ ":" ++ mm) = [h; mm].
Proof.
  intros Hh Hm. induction h as [|c h IH]; cbn [append Py.split] in *.
  - rewrite Ascii.eqb_refl. now rewrite (split_digits _ Hm).
  - unfold Py.all_digits in Hh. cbn [Py.all_chars] in Hh.
    apply andb_true_iff in Hh. destruct Hh as [Hc Hh].
    rewrite (digit_not_colon _ Hc). now rewrite (IH Hh).
Qed.

(** ** [int] and [:02d] on an hour *)

Lemma digit_cases (c : ascii) :
  Py.is_digit c = true ->
  In c ["0"; "1"; "2"; "3"; "4"; "5"; "6"; "7"; "8"; "9"]%char.
Proof.
  destruct c as [[] [] [] [] [] [] [] []]; simpl; intros H;
    try discriminate H; tauto.
Qed.

Lemma hour_cases (h : string) :
  Phrase.is_hour h ->
  exists a, Py.is_digit a = true
            /\ (h = String a "" \/ exists b, Py.is_digit b = true
                                             /\ h = String a (String b "")).
Proof.
  unfold Phrase.is_hour, Py.all_digits. intros [Hd [Hl|Hl]].
  - destruct h as [|a [|b h]]; try discriminate Hl.
    cbn [Py.all_chars] in Hd. rewrite andb_true_r in Hd. eauto.
  - destruct h as [|a [|b [|c h]]]; try discriminate Hl.
    cbn [Py.all_chars] in Hd. rewrite andb_true_r in Hd.
    apply andb_true_iff in Hd. destruct Hd. eauto 6.
Qed.

Lemma int_hour (h : string) :
  Phrase.is_hour h -> Py.int h = inr (Py.digits_val 0 h).
Proof.
  intros Hh. destruct (hour_cases h Hh) as (a & Ha & [->|(b & Hb & ->)]);
    unfold Py.int, Py.all_digits; cbn [Py.all_chars];
    rewrite ?Ha, ?Hb; reflexivity.
Qed.

Lemma fmt_02d_hour (h : string) :
  Phrase.is_hour h -> Py.fmt_02d (Py.digits_val 0 h) = Phrase.zero_pad2 h.
Proof.
  intros Hh. destruct (hour_cases h Hh) as (a & Ha & [->|(b & Hb & ->)]).
  - apply digit_cases in Ha. simpl in Ha.
    repeat (destruct Ha as [<-|Ha]; [reflexivity|]). contradiction.
  - apply digit_cases in Ha. apply digit_cases in Hb. simpl in Ha, Hb.
    repeat (destruct Ha as [<-|Ha];
            [repeat (destruct Hb as [<-|Hb]; [reflexivity|]);
             contradiction|]).
    contradiction.
Qed.

(** ** The time pattern *)

Lemma minutes_cases (mm : string) :
  Phrase.is_minutes mm ->
  exists c d, Py.is_digit c = true /\ Py.is_digit d = true
              /\ mm = String c (String d "").
Proof.
  unfold Phrase.is_minutes, Py.all_digits. intros [Hd Hl].
  destruct mm as [|c [|d [|e mm]]]; try discriminate Hl.
  cbn [Py.all_chars] in Hd. rewrite andb_true_r in Hd.
  apply andb_true_iff in Hd. destruct Hd. eauto.
Qed.

Lemma time_re_matches (s h mm : string) :
  Phrase.time_at s h mm -> Re.match_at time_re s = Some (h ++ ":" ++ mm).
Proof.
  intros (Hh & Hm & post & ->).
  destruct (minutes_cases mm Hm) as (c & d & Hc & Hd & ->).
  destruct (hour_cases h Hh) as (a & Ha & [->|(b & Hb & ->)]);
    destruct post as [|e post];
    unfold Re.match_at, time_re;
    cbn [Re.rmatch Re.rep_match Re.cls_test append Re.more option_map
         Nat.pred Py.starts_with Py.drop String.length];
    rewrite ?Ha, ?Hb, ?Hc, ?Hd; cbn [andb];
    replace (Py.is_digit ":") with false by reflexivity;
    rewrite Ascii.eqb_refl; cbn [andb]; rewrite ?andb_false_r;
    reflexivity.
Qed.

Section MatchesInversion.
Variables (m cap cap' : string).

Lemma Matches_Lit_inv l :
  Re.Matches (Re.Lit l) m cap cap' -> m = l /\ cap' = cap.
Proof. intros H. inversion H. auto. Qed.

Lemma Matches_Rep_inv c lo hi :
  Re.Matches (Re.Rep c lo hi) m cap cap' ->
  Py.all_chars (Re.cls_test c) m = true
  /\ (lo <= String.length m)%nat /\ Re.within hi (String.length m)
  /\ cap' = cap.
Proof. intros H. inversion H. auto. Qed.

Lemma Matches_Seq_inv r1 r2 :
  Re.Matches (Re.Seq r1 r2) m cap cap' ->
  exists m1 m2 cap1,
    m = m1 ++ m2 /\ Re.Matches r1 m1 cap cap1
    /\ Re.Matches r2 m2 cap1 cap'.
Proof. intros H. inversion H. eauto 6. Qed.


Lemma Matches_Group_inv r :
  Re.Matches (Re.Group r) m cap cap' ->
  cap' = m /\ exists cap1, Re.Matches r m cap cap1.
Proof. intros H. inversion H. eauto. Qed.
End MatchesInversion.

Lemma time_re_sound (s g : string) :
  Re.match_at time_re s = Some g -> Phrase.time_here s.
Proof.
  intros H. apply match_at_sound in H. destruct H as (m & rest & -> & HM).
  apply Matches_Group_inv in HM. destruct HM as (_ & c1 & HM).
  apply Matches_Seq_inv in HM. destruct HM as (h & m2 & c2 & -> & Hh & HM).
  apply Matches_Seq_inv in HM. destruct HM as (l & mm & c3 & -> & Hl & Hm).
  apply Matches_Lit_inv in Hl. destruct Hl as [-> _].
  apply Matches_Rep_inv in Hh. destruct Hh as (Hh & Hh1 & Hh2 & _).
  apply Matches_Rep_inv in Hm. destruct Hm as (Hm & Hm1 & Hm2 & _).
  simpl in Hh2, Hm2. exists h, mm. split; [|split].
  - split; [exact Hh|lia].
  - split; [exact Hm|lia].
  - exists rest. now rewrite !append_assoc.
Qed.

(** ** The guest patterns *)

Lemma nonempty_length (s : string) :
  s <> "" <-> (1 <= String.length s)%nat.
Proof.
  destruct s; simpl; split; intros H; try congruence; try lia.
Qed.



Lemma for_re_matches (s ds : string) :
  Phrase.for_phrase_at s ds -> Re.match_at for_re s = Some ds.
Proof.
  intros (kw & ws & post & -> & Hkw & Hws & Hsp & Hds & Hdg & Hpost).
  assert (Hnext : Py.starts_in Py.is_space (ds ++ post) = false).
  { destruct ds as [|d ds]; [congruence|]. simpl.
    unfold Py.all_digits in Hdg. cbn [Py.all_chars] in Hdg.
    apply andb_true_iff in Hdg. now apply digit_not_space. }
  apply nonempty_length in Hws. apply nonempty_length in Hds.
  assert (Hgo : forall cap : string,
             Re.rmatch (Re.Seq (Re.Rep Re.Space 1 None)
                               (Re.Group (Re.Rep Re.Digit 1 None)))
               (ws ++ ds ++ post) cap
               (fun (_ _ : string) (c : string) => Some c) = Some ds).
  { intros cap. cbn [Re.rmatch Re.cls_test].
    apply rep_match_run; auto. now apply rep_match_run. }
  unfold Re.match_at, for_re.
  destruct Hkw as [->| ->].
  - cbn [Re.rmatch]. rewrite starts_with_append, drop_append.
    cbn [Re.rmatch Re.cls_test] in *.
    rewrite (rep_match_run Py.is_space ws (ds ++ post) 1 _ ds);
      auto. now apply rep_match_run.
  - cbn [Re.rmatch].
    replace (Py.starts_with "for" ("of" ++ ws ++ ds ++ post)) with false
      by reflexivity.
    rewrite starts_with_append, drop_append.
    rewrite (rep_match_run Py.is_space ws (ds ++ post) 1 _ ds);
      auto. now apply rep_match_run.
Qed.

(** ** Slot extraction *)

Lemma search_time_first (m pre q h mm : string) :
  Phrase.first_at Phrase.time_here m pre q -> Phrase.time_at q h mm ->
  Re.search time_re m = Some (h ++ ":" ++ mm).
Proof.
  intros (-> & _ & Hfirst) Hat.
  apply search_first; [now apply time_re_matches|].
  intros pre' q' E Hlt.
  destruct (Re.match_at time_re q') as [g|] eqn:Hg; [|reflexivity].
  exfalso. apply (Hfirst pre' q' E Hlt). eapply time_re_sound; eauto.
Qed.

Lemma extract_time_first (m pre q h mm : string) :
  Phrase.first_at Phrase.time_here m pre q -> Phrase.time_at q h mm ->
  extract_time m = inr (Some (Phrase.zero_pad2 h ++ ":" ++ mm)).
Proof.
  intros Hfirst Hat. unfold extract_time.
  rewrite (search_time_first m pre q h mm Hfirst Hat).
  destruct Hat as ((Hh & Hhl) & (Hm & _) & _).
  rewrite (split_time h mm Hh Hm). cbn [Py.index nth_error rbind].
  rewrite (int_hour h (conj Hh Hhl)). cbn [rbind].
  now rewrite (fmt_02d_hour h (conj Hh Hhl)).
Qed.







Lemma search_none_inv (r : Re.regex) (s : string) :
  Re.search r s = None ->
  forall pre q, s = pre ++ q -> Re.match_at r q = None.
Proof.
  induction s as [|c s IH]; cbn [Re.search]; intros H pre q E.
  - destruct pre; [|discriminate]. simpl in E. subst q.
    destruct (Re.match_at r ""); [discriminate|reflexivity].
  - destruct (Re.match_at r (String c s)) as [g|] eqn:Hg; [discriminate|].
    destruct pre as [|c' pre]; simpl in E.
    + now subst q.
    + injection E as -> ->. now apply IH with (pre := pre).
Qed.


Lemma nowhere_time (m : string) :
  Re.search time_re m = None -> Phrase.nowhere Phrase.time_here m.
Proof.
  intros H pre q E (h & mm & Hat).
  apply time_re_matches in Hat.
  rewrite (search_none_inv _ _ H pre q E) in Hat. discriminate.
Qed.


Lemma nowhere_for (ml : string) :
  Re.search for_re ml = None -> Phrase.nowhere Phrase.for_phrase_here ml.
Proof.
  intros H pre q E (ds & Hat).
  apply for_re_matches in Hat.
  rewrite (search_none_inv _ _ H pre q E) in Hat. discriminate.
Qed.




(** ** The order of the prompts *)







(** ** Totality of the orchestrator *)

(** C9 fails on the code: [handle_message] raises [ValueError] on a
    reservation request whose guest count has 4301 digits, one digit more
    than [int] converts, whatever the store; the store is left as it
    was. *)
Theorem handle_message_long_number (s : Store) :
  handle_message long_number_message s = (inl Py.ValueError, s).
Proof.
  apply handle_message_raises. vm_compute. reflexivity.
Qed.

Lemma search_sound (r : Re.regex) (s g : string) :
  Re.search r s = Some g ->
  exists pre q, s = pre ++ q /\ Re.match_at r q = Some g.
Proof.
  induction s as [|c s IH]; cbn [Re.search].
  - destruct (Re.match_at r "") as [g'|] eqn:E; [|discriminate].
    intros H. injection H as ->. now exists "", "".
  - destruct (Re.match_at r (String c s)) as [g'|] eqn:E.
    + intros H. injection H as ->. now exists "", (String c s).
    + intros H. destruct (IH H) as (pre & q & -> & Hq).
      now exists (String c pre), q.
Qed.

Lemma time_re_capture (s g : string) :
  Re.match_at time_re s = Some g ->
  exists h mm, Phrase.time_at s h mm /\ g = h ++ ":" ++ mm.
Proof.
  intros H. destruct (time_re_sound s g H) as (h & mm & Hat).
  exists h, mm. split; [exact Hat|].
  rewrite (time_re_matches s h mm Hat) in H. now injection H.
Qed.












(** X2. [_format_date] raises nothing: it returns the formatted date, and
    the text it was given when [strptime] rejects it. *)
Theorem format_date_total (date_str : string) :
  (exists text, _format_date date_str = inr text)
  /\ (forall e, Date.strptime_Ymd date_str = inl e ->
                _format_date date_str = inr date_str)
  /\ (forall dt, Date.strptime_Ymd date_str = inr dt ->
                 _format_date date_str = inr (Date.strftime_BdY dt)).
Proof.
  split; [rewrite _format_date_returns; eauto|].
  split.
  - intros e H. pose proof (strptime_Ymd_raises _ _ H) as ->.
    unfold _format_date. now rewrite H.
  - intros dt H. unfold _format_date. now rewrite H.
Qed.

Lemma zero_pad2_hour (h : string) :
  Phrase.is_hour h ->
  Py.all_digits (Phrase.zero_pad2 h) = true
  /\ String.length (Phrase.zero_pad2 h) = 2%nat.
Proof.
  intros Hh. destruct (hour_cases h Hh) as (a & Ha & [->|(b & Hb & ->)]);
    unfold Phrase.zero_pad2, Py.all_digits; simpl String.length;
    cbn [Nat.ltb Nat.leb append Py.all_chars String.length];
    rewrite ?Ha, ?Hb; split; reflexivity.
Qed.


(** ** What the orchestrator changes *)

Lemma digit_val_nonneg (c : ascii) : Py.is_digit c = true -> 0 <= Py.digit_val c.
Proof.
  rewrite is_digit_range. unfold Py.digit_val. lia.
Qed.

Lemma digits_val_nonneg (s : string) :
  forall acc, 0 <= acc -> Py.all_chars Py.is_digit s = true ->
              0 <= Py.digits_val acc s.
Proof.
  induction s as [|c s IH]; intros acc Hacc; cbn [Py.all_chars Py.digits_val];
    [auto|].
  intros H. apply andb_true_iff in H. destruct H as [Hc Hs].
  apply IH; [|exact Hs]. pose proof (digit_val_nonneg c Hc). lia.
Qed.

Lemma int_nonneg (g : string) (n : Z) : Py.int g = inr n -> 0 <= n.
Proof.
  unfold Py.int. destruct g as [|c g]; [discriminate|].
  destruct (Py.all_digits (String c g)) eqn:Hd; [|discriminate].
  destruct (Py.int_max_str_digits <? String.length (String c g))%nat;
    [discriminate|].
  intros H. injection H as <-.
  exact (digits_val_nonneg (String c g) 0 (Z.le_refl 0) Hd).
Qed.

Lemma extract_guests_nonneg (ml : string) (n : Z) :
  extract_guests ml = inr n -> 0 <= n.
Proof.
  unfold extract_guests.
  assert (Hfor : forall k,
             match Re.search for_re ml with
             | Some g => Py.int g
             | None => inr 0
             end = inr k -> 0 <= k).
  { intros k. destruct (Re.search for_re ml) as [g|].
    - apply int_nonneg.
    - intros H. injection H as <-. lia. }
  destruct (Re.search guest_re ml) as [g|].
  - destruct (Py.int g) as [e|k] eqn:Hk; cbn [rbind]; [discriminate|].
    destruct (k =? 0) eqn:E.
    + apply Z.eqb_eq in E. subst k. apply Hfor.
    + intros H. injection H as <-. eapply int_nonneg; eauto.
  - cbn [rbind]. simpl Z.eqb. cbv iota. apply Hfor.
Qed.

Lemma book_table_changes (s : Store) (date time : string) (guests : Z) :
  snd (book_table date time guests s) <> s
  <-> 0 < guests /\ exists n, slot_count s date time = Some n /\ 0 < n.
Proof.
  destruct (Z.le_gt_cases guests 0) as [Hg|Hg].
  { rewrite (book_table_invalid _ _ _ _ Hg). cbn [snd].
    split; [congruence|lia]. }
  unfold slot_count.
  destruct (Py.dict_get s date) as [sch|] eqn:Hd.
  2:{ rewrite (book_table_no_date _ _ time _ Hg Hd). cbn [snd].
      split; [congruence|]. intros (_ & n & Hn & _). discriminate. }
  destruct (Py.dict_get sch time) as [n|] eqn:Ht.
  2:{ rewrite (book_table_no_time _ _ _ _ _ Hg Hd Ht). cbn [snd].
      split; [congruence|]. intros (_ & n & Hn & _). discriminate. }
  destruct (Z.le_gt_cases n 0) as [Hn|Hn].
  { rewrite (book_table_full _ _ _ _ _ _ Hg Hd Ht Hn). cbn [snd].
    split; [congruence|]. intros (_ & n' & Hn' & Hpos).
    injection Hn' as <-. lia. }
  rewrite (book_table_ok _ _ _ _ _ _ Hg Hd Ht Hn). cbn [snd].
  split; [eauto|]. intros _ Heq.
  pose proof (slot_count_with_same s date time sch (n - 1)) as H1.
  rewrite Heq in H1. unfold slot_count in H1. rewrite Hd, Ht in H1.
  injection H1. lia.
Qed.






(** ** Series of operations *)

Lemma run_ops_cons (o : op) (os : list op) (s : Store) :
  run_ops (o :: os) s = run_ops os (run_op o s).
Proof. reflexivity. Qed.

(** X6. Booking one slot over and over: from a count of [n] >= 0, after
    [k] bookings (each for at least one guest) the slot holds
    [max 0 (n - k)] tables, so exactly [min n k] of them succeed and none
    overbooks; every other slot is as before. *)
Theorem bookings_exhaust_slot (parties : list Z) :
  forall (s : Store) (date time : string) (n : Z),
    Forall (fun g => 0 < g) parties ->
    slot_count s date time = Some n -> 0 <= n ->
    slot_count (run_ops (bookings date time parties) s) date time
    = Some (Z.max 0 (n - Z.of_nat (List.length parties)))
    /\ forall d t, (d, t) <> (date, time) ->
         slot_count (run_ops (bookings date time parties) s) d t
         = slot_count s d t.
Proof.
  induction parties as [|g gs IH]; intros s date time n Hgs Hn Hpos.
  - cbn. split; [|reflexivity]. rewrite Hn. f_equal. lia.
  - inversion Hgs as [|g' gs' Hg Hgs']; subst.
    unfold bookings. cbn [map]. rewrite run_ops_cons. cbn [run_op].
    fold (bookings date time gs).
    destruct (slot_count_inv _ _ _ _ Hn) as (sch & Hd & Ht).
    destruct (Z.eq_dec n 0) as [->|Hnz].
    + rewrite (book_table_full _ _ _ _ _ _ Hg Hd Ht (Z.le_refl 0)).
      cbn [snd]. destruct (IH s date time 0 Hgs' Hn (Z.le_refl 0)) as [H1 H2].
      split; [|exact H2]. rewrite H1. f_equal.
      rewrite length_cons. lia.
    + assert (Hn1 : 0 < n) by lia.
      rewrite (book_table_ok _ _ _ _ _ _ Hg Hd Ht Hn1). cbn [snd].
      destruct (IH (Py.setitem s date (Py.setitem sch time (n - 1)))
                  date time (n - 1) Hgs'
                  (slot_count_with_same s date time sch (n - 1))
                  ltac:(lia)) as [H1 H2].
      split.
      * rewrite H1. f_equal. rewrite length_cons. lia.
      * intros d t Hne. rewrite (H2 d t Hne).
        now apply slot_count_with_other.
Qed.

Lemma bookings_exhaust_slot_witness :
  slot_count (run_ops (bookings "2026-02-20" "19:00" [4; 2; 6])
                scenario_store) "2026-02-20" "19:00"
  = Some (Z.max 0 (2 - Z.of_nat (List.length [4; 2; 6])))
  /\ forall d t, (d, t) <> ("2026-02-20", "19:00") ->
       slot_count (run_ops (bookings "2026-02-20" "19:00" [4; 2; 6])
                     scenario_store) d t
       = slot_count scenario_store d t.
Proof.
  apply (bookings_exhaust_slot [4; 2; 6] scenario_store
           "2026-02-20" "19:00" 2).
  - repeat constructor.
  - reflexivity.
  - lia.
Defined.

Lemma run_op_slot (o : op) (s : Store) (d t : string) (n : Z) :
  slot_count s d t = Some n ->
  exists n', slot_count (run_op o s) d t = Some n' /\ n - 1 <= n' <= n.
Proof.
  intros Hn.
  destruct (run_op_step o s)
    as [->|(date & time & sch & k & Hd & Ht & Hk & ->)].
  { exists n. split; [exact Hn|lia]. }
  destruct (String.eqb_spec d date) as [->|Hne].
  - destruct (String.eqb_spec t time) as [->|Hne].
    + rewrite slot_count_with_same. exists (k - 1). split; [reflexivity|].
      unfold slot_count in Hn. rewrite Hd, Ht in Hn. injection Hn as <-. lia.
    + rewrite slot_count_with_other; [|exact Hd|congruence].
      exists n. split; [exact Hn|lia].
  - rewrite slot_count_with_other; [|exact Hd|congruence].
    exists n. split; [exact Hn|lia].
Qed.

Lemma run_op_keys (o : op) (s : Store) :
  Py.keys (run_op o s) = Py.keys s
  /\ forall d, option_map Py.keys (Py.dict_get (run_op o s) d)
               = option_map Py.keys (Py.dict_get s d).
Proof.
  destruct (run_op_step o s)
    as [->|(date & time & sch & k & Hd & Ht & Hk & ->)]; [auto|].
  split.
  - eapply keys_setitem_present; eauto.
  - intros d. eapply schedule_keys_with; eauto.
Qed.

(** X7. No sequence of operations adds or removes a date or a time slot:
    the dates of the store and the times under each date stay as loaded,
    in the same order.  A slot's count never goes up, and goes down by at
    most one per operation. *)
Theorem operations_keep_the_slots (os : list op) (s : Store) :
  Py.keys (run_ops os s) = Py.keys s
  /\ (forall d, option_map Py.keys (Py.dict_get (run_ops os s) d)
                = option_map Py.keys (Py.dict_get s d))
  /\ (forall d t n,
        slot_count s d t = Some n ->
        exists n', slot_count (run_ops os s) d t = Some n'
                   /\ n - Z.of_nat (List.length os) <= n' <= n).
Proof.
  revert s. induction os as [|o os IH]; intros s.
  - cbn. split; [reflexivity|]. split; [reflexivity|].
    intros d t n Hn. exists n. split; [exact Hn|lia].
  - rewrite run_ops_cons.
    destruct (IH (run_op o s)) as (K1 & K2 & K3).
    destruct (run_op_keys o s) as (S1 & S2).
    split; [now rewrite K1|]. split; [intros d; now rewrite K2|].
    intros d t n Hn.
    destruct (run_op_slot o s d t n Hn) as (n1 & Hn1 & Hb1).
    destruct (K3 d t n1 Hn1) as (n' & Hn' & Hb').
    exists n'. split; [exact Hn'|]. rewrite length_cons. lia.
Qed.

(** ** Two operations together *)

Lemma setitem_twice {V : Type} (d : Py.dict V) (k : string) (v1 v2 : V) :
  Py.setitem (Py.setitem d k v1) k v2 = Py.setitem d k v2.
Proof.
  induction d as [|[k' v'] d IH]; simpl.
  - now rewrite String.eqb_refl.
  - destruct (String.eqb k k') eqn:E; simpl; rewrite E; [reflexivity|].
    now rewrite IH.
Qed.

Lemma setitem_swap {V : Type} (d : Py.dict V) (k1 k2 : string) (v1 v2 w1 w2 : V) :
  k1 <> k2 -> Py.dict_get d k1 = Some w1 -> Py.dict_get d k2 = Some w2 ->
  Py.setitem (Py.setitem d k1 v1) k2 v2
  = Py.setitem (Py.setitem d k2 v2) k1 v1.
Proof.
  intros Hne. induction d as [|[k' v'] d IH]; simpl; [discriminate|].
  destruct (String.eqb k1 k') eqn:E1; destruct (String.eqb k2 k') eqn:E2;
    simpl; rewrite ?E1, ?E2; try reflexivity.
  - apply String.eqb_eq in E1. apply String.eqb_eq in E2. congruence.
  - intros H1 H2. now rewrite IH.
Qed.

(** The store [book_table] leaves, read off the slot alone. *)
Lemma book_table_effect (s : Store) (date time : string) (guests : Z) :
  0 < guests ->
  snd (book_table date time guests s)
  = match Py.dict_get s date with
    | Some sch =>
        match Py.dict_get sch time with
        | Some n => if 0 <? n
                    then Py.setitem s date (Py.setitem sch time (n - 1))
                    else s
        | None => s
        end
    | None => s
    end.
Proof.
  intros Hg.
  destruct (Py.dict_get s date) as [sch|] eqn:Hd.
  2:{ now rewrite (book_table_no_date _ _ time _ Hg Hd). }
  destruct (Py.dict_get sch time) as [n|] eqn:Ht.
  2:{ now rewrite (book_table_no_time _ _ _ _ _ Hg Hd Ht). }
  destruct (0 <? n) eqn:E.
  - apply Z.ltb_lt in E. now rewrite (book_table_ok _ _ _ _ _ _ Hg Hd Ht E).
  - apply Z.ltb_ge in E. now rewrite (book_table_full _ _ _ _ _ _ Hg Hd Ht E).
Qed.

(** X8. Bookings of two different slots do not interfere: whichever is
    made first, the store ends the same. *)
Theorem bookings_commute (s : Store) (d1 t1 d2 t2 : string) (g1 g2 : Z) :
  (d1, t1) <> (d2, t2) ->
  run_ops [BookTable d1 t1 g1; BookTable d2 t2 g2] s
  = run_ops [BookTable d2 t2 g2; BookTable d1 t1 g1] s.
Proof.
  intros Hne. cbn [run_ops fold_left run_op].
  destruct (Z.le_gt_cases g1 0) as [Hg1|Hg1].
  { now rewrite !(book_table_invalid _ d1 t1 g1 Hg1). }
  destruct (Z.le_gt_cases g2 0) as [Hg2|Hg2].
  { now rewrite !(book_table_invalid _ d2 t2 g2 Hg2). }
  rewrite !book_table_effect by assumption.
  destruct (Py.dict_get s d1) as [sch1|] eqn:Hd1.
  2:{ destruct (Py.dict_get s d2) as [sch2|] eqn:Hd2; [|now rewrite Hd1].
      destruct (Py.dict_get sch2 t2) as [n2|] eqn:Ht2; [|now rewrite Hd1].
      destruct (0 <? n2); [|now rewrite Hd1].
      rewrite dict_get_setitem_other by congruence. now rewrite Hd1. }
  destruct (Py.dict_get sch1 t1) as [n1|] eqn:Ht1.
  2:{ destruct (Py.dict_get s d2) as [sch2|] eqn:Hd2; [|now rewrite Hd1, Ht1].
      destruct (Py.dict_get sch2 t2) as [n2|] eqn:Ht2; [|now rewrite Hd1, Ht1].
      destruct (0 <? n2); [|now rewrite Hd1, Ht1].
      destruct (String.eqb_spec d1 d2) as [->|Hd].
      - rewrite dict_get_setitem_same.
        rewrite Hd1 in Hd2. injection Hd2 as <-.
        rewrite dict_get_setitem_other by congruence. now rewrite Ht1.
      - rewrite dict_get_setitem_other by congruence. now rewrite Hd1, Ht1. }
  destruct (0 <? n1) eqn:E1.
  2:{ destruct (Py.dict_get s d2) as [sch2|] eqn:Hd2;
        [|now rewrite Hd1, Ht1, E1].
      destruct (Py.dict_get sch2 t2) as [n2|] eqn:Ht2;
        [|now rewrite Hd1, Ht1, E1].
      destruct (0 <? n2); [|now rewrite Hd1, Ht1, E1].
      destruct (String.eqb_spec d1 d2) as [->|Hd].
      - rewrite dict_get_setitem_same.
        rewrite Hd1 in Hd2. injection Hd2 as <-.
        rewrite dict_get_setitem_other by congruence. now rewrite Ht1, E1.
      - rewrite dict_get_setitem_other by congruence.
        now rewrite Hd1, Ht1, E1. }
  destruct (String.eqb_spec d1 d2) as [->|Hd].
  - assert (Ht : t1 <> t2) by congruence.
    rewrite dict_get_setitem_same. rewrite Hd1.
    rewrite dict_get_setitem_other by congruence.
    destruct (Py.dict_get sch1 t2) as [n2|] eqn:Ht2.
    2:{ now rewrite Hd1, Ht1, E1. }
    destruct (0 <? n2) eqn:E2.
    2:{ now rewrite Hd1, Ht1, E1. }
    rewrite dict_get_setitem_same.
    rewrite dict_get_setitem_other by congruence. rewrite Ht1, E1.
    rewrite !setitem_twice. f_equal.
    now apply (setitem_swap sch1 t1 t2 (n1 - 1) (n2 - 1) n1 n2).
  - rewrite dict_get_setitem_other by congruence.
    destruct (Py.dict_get s d2) as [sch2|] eqn:Hd2.
    2:{ now rewrite Hd1, Ht1, E1. }
    destruct (Py.dict_get sch2 t2) as [n2|] eqn:Ht2.
    2:{ now rewrite Hd1, Ht1, E1. }
    destruct (0 <? n2) eqn:E2.
    2:{ now rewrite Hd1, Ht1, E1. }
    rewrite dict_get_setitem_other by congruence. rewrite Hd1, Ht1, E1.
    now apply (setitem_swap s d1 d2 _ _ sch1 sch2).
Qed.

Lemma bookings_commute_witness :
  run_ops [BookTable "2026-02-21" "18:00" 2; BookTable "2026-02-21" "20:00" 5]
          two_day_store
  = run_ops [BookTable "2026-02-21" "20:00" 5; BookTable "2026-02-21" "18:00" 2]
            two_day_store.
Proof.
  apply (bookings_commute two_day_store "2026-02-21" "18:00"
           "2026-02-21" "20:00" 2 5).
  intros H. discriminate H.
Defined.

(** X9. [check_availability] and [book_table] agree: for a party of at
    least one, the booking takes a table exactly when the check says
    available; and the check made after a successful booking reports one
    table less (fully booked when it was the last one). *)
Theorem check_then_book (s : Store) (date time : string) (guests : Z)
    (r : AvailabilityResult) :
  0 < guests ->
  fst (check_availability date time s) = inr r ->
  (available r = true <-> snd (book_table date time guests s) <> s)
  /\ (available r = true ->
      fst (check_availability date time
             (snd (book_table date time guests s)))
      = inr {| available := 1 <? tables r;
               tables := tables r - 1;
               reason := if 1 <? tables r then ok else fully_booked |}).
Proof.
  intros Hg Hr. rewrite check_availability_run in Hr. cbn [fst] in Hr.
  injection Hr as <-.
  rewrite book_table_changes. unfold slot_count.
  destruct (Py.dict_get s date) as [sch|] eqn:Hd; cbn [available tables].
  2:{ split; [|discriminate]. split; [discriminate|].
      intros (_ & n & Hn & _). discriminate. }
  destruct (Py.dict_get sch time) as [n|] eqn:Ht; cbn [available tables].
  2:{ split; [|discriminate]. split; [discriminate|].
      intros (_ & n & Hn & _). discriminate. }
  split.
  - rewrite Z.ltb_lt. split; [eauto|].
    intros (_ & n' & Hn' & Hpos). now injection Hn' as <-.
  - intros Hn. apply Z.ltb_lt in Hn.
    rewrite (book_table_ok _ _ _ _ _ _ Hg Hd Ht Hn). cbn [snd].
    rewrite check_availability_run. cbn [fst].
    rewrite !dict_get_setitem_same.
    replace (0 <? n - 1) with (1 <? n); [reflexivity|].
    destruct (1 <? n) eqn:E; symmetry.
    + apply Z.ltb_lt in E. apply Z.ltb_lt. lia.
    + apply Z.ltb_ge in E. apply Z.ltb_ge. lia.
Qed.

Lemma check_then_book_witness :
  (true = true
   <-> snd (book_table "2026-02-21" "20:00" 3 two_day_store) <> two_day_store)
  /\ (true = true ->
      fst (check_availability "2026-02-21" "20:00"
             (snd (book_table "2026-02-21" "20:00" 3 two_day_store)))
      = inr {| available := 1 <? 1;
               tables := 1 - 1;
               reason := if 1 <? 1 then ok else fully_booked |}).
Proof.
  apply (check_then_book two_day_store "2026-02-21" "20:00" 3
           {| available := true; tables := 1; reason := ok |}).
  - lia.
  - reflexivity.
Defined.

(** ** Suggestions can be followed *)

Lemma dict_get_NoDup {V : Type} (d : Py.dict V) (k : string) (v : V) :
  NoDup (Py.keys d) -> In (k, v) d -> Py.dict_get d k = Some v.
Proof.
  unfold Py.keys. induction d as [|[k' v'] d IH]; simpl; [contradiction|].
  intros Hnd [E|Hin].
  - injection E as -> ->. now rewrite String.eqb_refl.
  - inversion Hnd as [|x xs Hnotin Hnd']; subst.
    destruct (String.eqb_spec k k') as [->|Hne]; [|auto].
    exfalso. apply Hnotin. apply in_map_iff. now exists (k', v).
Qed.

(** X10. A time that [suggest_alternative] lists for the date can be
    booked: for a party of at least one, [book_table] at that date and time
    confirms the reservation and takes one table from the count the
    suggestion showed. *)
Theorem suggested_slot_can_be_booked (s : Store) (date : string)
    (day : Schedule) (t : string) (c guests : Z) :
  Py.dict_get s date = Some day -> NoDup (Py.keys day) ->
  In (t, c) (filter has_tables day) -> 0 < guests ->
  exists reply,
    fst (book_table date t guests s) = inr reply
    /\ Py.starts_with "✅ Reservation confirmed!" reply = true
    /\ slot_count (snd (book_table date t guests s)) date t = Some (c - 1).
Proof.
  intros Hd Hnd Hin Hg. apply filter_In in Hin. destruct Hin as [Hin Hc].
  unfold has_tables in Hc. cbn [snd] in Hc. apply Z.ltb_lt in Hc.
  pose proof (dict_get_NoDup day t c Hnd Hin) as Ht.
  rewrite (book_table_ok _ _ _ _ _ _ Hg Hd Ht Hc). cbn [fst snd].
  eexists. split; [reflexivity|]. split; [reflexivity|].
  apply slot_count_with_same.
Qed.

Lemma suggested_slot_can_be_booked_witness :
  exists reply,
    fst (book_table "2026-02-21" "20:00" 2 two_day_store) = inr reply
    /\ Py.starts_with "✅ Reservation confirmed!" reply = true
    /\ slot_count (snd (book_table "2026-02-21" "20:00" 2 two_day_store))
                  "2026-02-21" "20:00" = Some (1 - 1).
Proof.
  apply (suggested_slot_can_be_booked two_day_store "2026-02-21"
           [("18:00", 3); ("20:00", 1)] "20:00" 1 2).
  - reflexivity.
  - repeat constructor; simpl; intuition discriminate.
  - simpl. auto.
  - lia.
Defined.

Lemma fold_add_shift (xs : list Z) (a : Z) :
  fold_left Z.add xs a = a + fold_left Z.add xs 0.
Proof.
  revert a. induction xs as [|x xs IH]; intros a; simpl; [lia|].
  rewrite (IH (a + x)), (IH x). lia.
Qed.

Lemma sum_cons (x : Z) (xs : list Z) : Py.sum (x :: xs) = x + Py.sum xs.
Proof. unfold Py.sum. simpl. apply fold_add_shift. Qed.

Lemma sum_positive (sch : Schedule) :
  nonneg_schedule sch ->
  (0 < Py.sum (Py.values sch) <-> exists t c, In (t, c) sch /\ 0 < c).
Proof.
  unfold nonneg_schedule, Py.values.
  induction sch as [|[t c] sch IH]; intros Hnn.
  - cbn. split; [lia|]. intros (t & c & [] & _).
  - inversion Hnn as [|x xs Hc Hnn']; subst. cbn [snd] in Hc.
    cbn [map snd]. rewrite sum_cons.
    assert (Hs : 0 <= Py.sum (map snd sch)).
    { destruct (Z.le_gt_cases 0 (Py.sum (map snd sch))) as [H|H]; [exact H|].
      clear IH. exfalso. revert H. clear -Hnn'.
      induction Hnn' as [|[t' c'] l Hc' Hl IHl]; cbn [map snd].
      - cbn. lia.
      - rewrite sum_cons. cbn [snd] in Hc'. lia. }
    split.
    + intros Hpos. destruct (Z.le_gt_cases c 0) as [Hc0|Hc0].
      * destruct (proj1 (IH Hnn')) as (t' & c' & Hin & Hc'); [lia|].
        exists t', c'. split; [now right|exact Hc'].
      * exists t, c. split; [now left|exact Hc0].
    + intros (t' & c' & [E|Hin] & Hc').
      * injection E as -> ->. lia.
      * assert (0 < Py.sum (map snd sch)); [|lia].
        apply IH; eauto.
Qed.

(** X11. In a store whose counts are all at least 0, the other dates
    that [suggest_alternative] proposes are exactly the dates, different
    from the one asked for, on which some slot still has a table. *)
Theorem suggested_dates_have_a_table (s : Store) (date d : string)
    (sch : Schedule) :
  nonneg_store s ->
  (In (d, sch) (filter (other_with_capacity date) s)
   <-> In (d, sch) s /\ d <> date /\ exists t c, In (t, c) sch /\ 0 < c).
Proof.
  intros Hnn. rewrite filter_In. unfold other_with_capacity. cbn [fst snd].
  rewrite andb_true_iff, negb_true_iff, String.eqb_neq, Z.ltb_lt.
  split.
  - intros (Hin & Hne & Hsum). split; [exact Hin|]. split; [exact Hne|].
    apply sum_positive; [|exact Hsum].
    unfold nonneg_store in Hnn. rewrite Forall_forall in Hnn.
    exact (Hnn _ Hin).
  - intros (Hin & Hne & Hex). split; [exact Hin|]. split; [exact Hne|].
    apply sum_positive; [|exact Hex].
    unfold nonneg_store in Hnn. rewrite Forall_forall in Hnn.
    exact (Hnn _ Hin).
Qed.

Lemma suggested_dates_have_a_table_witness :
  In ("2026-02-21", [("18:00", 3); ("20:00", 1)])
     (filter (other_with_capacity "2026-02-20") two_day_store)
  <-> In ("2026-02-21", [("18:00", 3); ("20:00", 1)]) two_day_store
      /\ "2026-02-21" <> "2026-02-20"
      /\ exists t c, In (t, c) [("18:00", 3); ("20:00", 1)] /\ 0 < c.
Proof.
  apply (suggested_dates_have_a_table two_day_store "2026-02-20"
           "2026-02-21" [("18:00", 3); ("20:00", 1)]).
  repeat constructor; simpl; lia.
Defined.

(** ** The date pattern *)

Lemma append_empty_r (a : string) : a ++ "" = a.
Proof. induction a as [|x a IH]; simpl; [reflexivity|now rewrite IH]. Qed.








(** ** The guest count *)






(** ** The time, again *)

Lemma zero_pad2_fixed (h : string) :
  String.length h = 2%nat -> Phrase.zero_pad2 h = h.
Proof. unfold Phrase.zero_pad2. now intros ->. Qed.

(** X14. A time that slot extraction has found is in its final form:
    extracting the time from that text gives the same text again.  So the
    time echoed in a reply is read back unchanged. *)
Theorem extract_time_idempotent (m t : string) :
  extract_time m = inr (Some t) -> extract_time t = inr (Some t).
Proof.
  intros H. unfold extract_time in H.
  destruct (Re.search time_re m) as [raw|] eqn:E; [|discriminate].
  apply search_sound in E. destruct E as (pre & q & -> & Hq).
  apply time_re_capture in Hq.
  destruct Hq as (h & mm & ((Hh & Hhl) & (Hm & Hml) & _) & ->).
  rewrite (split_time h mm Hh Hm) in H. cbn [Py.index nth_error rbind] in H.
  rewrite (int_hour h (conj Hh Hhl)) in H. cbn [rbind] in H.
  rewrite (fmt_02d_hour h (conj Hh Hhl)) in H.
  injection H as <-.
  destruct (zero_pad2_hour h (conj Hh Hhl)) as [Hd Hl].
  assert (Hat : Phrase.time_at (Phrase.zero_pad2 h ++ ":" ++ mm)
                  (Phrase.zero_pad2 h) mm).
  { split; [split; [exact Hd|now right]|]. split; [now split|].
    exists "". now rewrite append_empty_r. }
  pose proof (extract_time_first (Phrase.zero_pad2 h ++ ":" ++ mm) ""
                (Phrase.zero_pad2 h ++ ":" ++ mm) (Phrase.zero_pad2 h) mm)
    as Hagain.
  rewrite (zero_pad2_fixed _ Hl) in Hagain. apply Hagain; [|exact Hat].
  split; [reflexivity|]. split; [now exists (Phrase.zero_pad2 h), mm|].
  intros pre' q' _ Hlt. simpl in Hlt. lia.
Qed.

Lemma extract_time_idempotent_witness :
  extract_time "07:30" = inr (Some "07:30").
Proof.
  apply (extract_time_idempotent "table for 2 at 7:30" "07:30").
  reflexivity.
Defined.

(** ** Substrings *)




(** ** Routing *)





(** ** [str.strip] *)









(** ** The chat route *)

Section ChatFacts.

Variable qa_chain : string -> Py.result string.

Lemma chat_endpoint_stripped (m : string) (s : Store) :
  App.chat_endpoint qa_chain m s
  = match App.strip m with
    | "" => (inr App.empty_message_text, s)
    | String _ _ =>
        if App.is_booking_intent (App.strip m)
        then handle_message (App.strip m) s
        else (inr (RAGEngine.query qa_chain (App.strip m)), s)
    end.
Proof.
  unfold App.chat_endpoint. cbv zeta.
  destruct (App.strip m); [reflexivity|].
  now destruct (App.is_booking_intent _).
Qed.




Lemma chat_endpoint_store (m : string) (s : Store) :
  snd (App.chat_endpoint qa_chain m s) = s
  \/ snd (App.chat_endpoint qa_chain m s)
     = run_op (HandleMessage (App.strip m)) s.
Proof.
  rewrite chat_endpoint_stripped.
  destruct (App.strip m) as [|c r]; [now left|].
  destruct (App.is_booking_intent (String c r)); [now right|now left].
Qed.

(** X19. Served through [chat_endpoint], whatever the messages and
    whatever the menu chain answers, the store keeps its dates and time
    slots, and counts that were all at least 0 stay at least 0. *)
Theorem chat_keeps_the_store_sound (ms : list string) (s : Store) :
  Py.keys (App.chat_all qa_chain ms s) = Py.keys s
  /\ (forall d, option_map Py.keys (Py.dict_get (App.chat_all qa_chain ms s) d)
                = option_map Py.keys (Py.dict_get s d))
  /\ (nonneg_store s -> nonneg_store (App.chat_all qa_chain ms s)).
Proof.
  unfold App.chat_all. revert s.
  induction ms as [|m ms IH]; intros s; cbn [fold_left]; [auto|].
  destruct (IH (snd (App.chat_endpoint qa_chain m s))) as (K1 & K2 & K3).
  destruct (chat_endpoint_store m s) as [E|E]; rewrite E in *.
  - auto.
  - destruct (run_op_keys (HandleMessage (App.strip m)) s) as (S1 & S2).
    split; [now rewrite K1|]. split; [intros d; now rewrite K2|].
    intros Hs. apply K3. now apply run_op_nonneg.
Qed.

End ChatFacts.

